(** * Cell toolbar tracker of jlab-enhanced-cell-toolbar

    A shallow embedding of [src/celltoolbartracker.ts]: the class
    [CellToolbarTracker], the constants it uses, and the part of the host
    (Lumino widgets and signals, JupyterLab observable lists, the notebook
    panel and the settings object) its methods read and write.

    The TypeScript objects are mutable and shared.  The embedding passes an
    explicit store, [World], which holds the host's notebook panel, the
    host's settings object, the tracker's own fields and the trace of the
    operations done on the widget tree.  A method is a function from [World]
    to [outcome World]; dereferencing [null] is the outcome [TypeError]. *)

From Stdlib Require Import List String Ascii Bool Arith ZArith Lia Permutation.
Import ListNotations.
Local Open Scope string_scope.
Local Open Scope list_scope.

Set Implicit Arguments.

(** ** Outcome of a call: a value, or an uncaught TypeError *)

Inductive outcome (A : Type) : Type :=
| Ok (a : A)
| TypeError.

Arguments Ok {A} a.
Arguments TypeError {A}.

Definition bind {A B : Type} (c : outcome A) (k : A -> outcome B) : outcome B :=
  match c with
  | Ok a => k a
  | TypeError => TypeError
  end.

Notation "x <- c ;; k" := (bind c (fun x => k))
  (at level 61, c at next level, right associativity).

(** [xs.forEach(x => f(x))] on a store: the calls run left to right and
    the first exception ends the loop. *)
Fixpoint forEach {A S : Type} (f : A -> S -> outcome S) (xs : list A) (s : S)
  : outcome S :=
  match xs with
  | [] => Ok s
  | x :: rest => s' <- f x s ;; forEach f rest s'
  end.

(** ** JavaScript values used by the tracker *)

(** A field that holds either [null] or the reference to the one object of
    its type in the store (the notebook panel, the settings object). *)
Inductive reference : Type :=
| null
| ref.

(** Truthiness of an object reference. *)
Definition truthy (r : reference) : bool :=
  match r with
  | null => false
  | ref => true
  end.

(** [x || d] for a JSON value that is an array or null/undefined: every
    array, the empty one too, is truthy. *)
Definition or_array {A : Type} (x : option (list A)) (d : list A) : list A :=
  match x with
  | Some l => l
  | None => d
  end.

(** [x || 0] for a JSON number or null/undefined. *)
Definition or_zero (x : option Z) : Z :=
  match x with
  | Some z => z
  | None => 0%Z
  end.

(** [x || d] for a string or undefined: the empty string is falsy. *)
Definition or_string (x : option string) (d : string) : string :=
  match x with
  | Some "" => d
  | Some s => s
  | None => d
  end.

(** [s.split(':')]. *)
Fixpoint split_colon_from (cur : string) (s : string) : list string :=
  match s with
  | EmptyString => [cur]
  | String c rest =>
      if Ascii.eqb c ":"%char
      then cur :: split_colon_from "" rest
      else split_colon_from (cur ++ String c "")%string rest
  end.

Definition split_colon (s : string) : list string := split_colon_from "" s.

(** ** Menu items ([ICellMenuItem] of tokens.ts) *)

Inductive CellType : Type :=
| code
| markdown
| raw.

Definition CellType_name (t : CellType) : string :=
  match t with
  | code => "code"
  | markdown => "markdown"
  | raw => "raw"
  end.

(** Modelled from the spec: the declaration of [ICellMenuItem] (tokens.ts)
    and the icons of icon.ts are not among the sources.  An item has a
    command and an icon, and may have a tooltip and a cell type.  Icons are
    named by the identifier the icon is registered under, as the settings
    schema names them. *)
Record ICellMenuItem : Type := {
  cellType : option CellType;
  command : string;
  icon : string;
  tooltip : option string
}.

Definition codeIcon := "@jlab-enhanced/cell-toolbar:code".
Definition deleteIcon := "@jlab-enhanced/cell-toolbar:delete".
Definition formatIcon := "@jlab-enhanced/cell-toolbar:format".
Definition markdownIcon := "ui-components:markdown".
Definition runIcon := "ui-components:run".
Definition caretUpEmptyThinIcon := "ui-components:caret-up-empty-thin".
Definition caretDownEmptyThinIcon := "ui-components:caret-down-empty-thin".
Definition addIcon := "ui-components:add".

Definition DEFAULT_LEFT_MENU : list ICellMenuItem :=
  [ {| cellType := Some markdown;
       command := "notebook:change-cell-to-code";
       icon := codeIcon;
       tooltip := None |};
    {| cellType := Some code;
       command := "notebook:change-cell-to-markdown";
       icon := markdownIcon;
       tooltip := None |};
    {| cellType := Some code;
       command := "jupyterlab_code_formatter:format";
       icon := formatIcon;
       tooltip := Some "Format Cell" |};
    {| cellType := None;
       command := "notebook:delete-cell";
       icon := deleteIcon;
       tooltip := None |} ].

Definition POSITIONED_BUTTONS : list ICellMenuItem :=
  [ {| cellType := None;
       command := "notebook:run-cell-and-select-next";
       icon := runIcon;
       tooltip := None |};
    {| cellType := None;
       command := "notebook:move-cell-up";
       icon := caretUpEmptyThinIcon;
       tooltip := None |};
    {| cellType := None;
       command := "notebook:move-cell-down";
       icon := caretDownEmptyThinIcon;
       tooltip := None |};
    {| cellType := None;
       command := "notebook:insert-cell-below";
       icon := addIcon;
       tooltip := None |} ].

(** Widget cell toolbar class. *)
Definition CELL_BAR_CLASS := "jp-enh-cell-bar".

(** ** Observable lists (@jupyterlab/observables) *)

Inductive ChangeType : Type :=
| change_add
| change_move
| change_remove
| change_set.

Record IChangedArgs (T : Type) : Type := {
  type : ChangeType;
  oldIndex : Z;
  newIndex : Z;
  oldValues : list T;
  newValues : list T
}.

Module ObservableList.

(** The array of an observable list and the arguments of every emission
    of its [changed] signal so far, oldest first. *)
Record t (T : Type) : Type := {
  values : list T;
  emitted : list (IChangedArgs T)
}.

Definition empty {T : Type} : t T := {| values := []; emitted := [] |}.

Definition length {T : Type} (l : t T) : nat := List.length (values l).

(** [clear()]: empties the array and emits one 'remove' of the old
    content. *)
Definition clear {T : Type} (l : t T) : t T :=
  {| values := [];
     emitted := emitted l ++
       [ {| type := change_remove; oldIndex := 0; newIndex := 0;
            oldValues := values l; newValues := [] |} ] |}.

(** [pushAll(items)]: appends the items in order and emits one 'add'. *)
Definition pushAll {T : Type} (items : list T) (l : t T) : t T :=
  {| values := values l ++ items;
     emitted := emitted l ++
       [ {| type := change_add; oldIndex := (-1);
            newIndex := Z.of_nat (List.length (values l));
            oldValues := []; newValues := items |} ] |}.

Section RemoveValue.
Variable T : Type.
Variable itemCmp : T -> T -> bool.

(** [ArrayExt.findFirstIndex]: the index of the first item equal to [v],
    counted from [i]; -1 when there is none. *)
Fixpoint findFirstIndex_from (v : T) (i : Z) (xs : list T) : Z :=
  match xs with
  | [] => (-1)%Z
  | x :: rest =>
      if itemCmp x v then i else findFirstIndex_from v (i + 1)%Z rest
  end.

Definition findFirstIndex (v : T) (xs : list T) : Z :=
  findFirstIndex_from v 0%Z xs.

(** [ArrayExt.removeAt(array, index)]: a negative index counts from the
    end of the array; an index out of range removes nothing and gives
    undefined; otherwise the item at the index leaves the array and is
    returned. *)
Definition removeAt (xs : list T) (index : Z) : option (T * list T) :=
  let n := Z.of_nat (List.length xs) in
  let index := if (index <? 0)%Z then (index + n)%Z else index in
  if ((index <? 0) || (n <=? index))%Z then None
  else
    match nth_error xs (Z.to_nat index) with
    | Some value =>
        Some (value,
              firstn (Z.to_nat index) xs ++ skipn (S (Z.to_nat index)) xs)
    | None => None
    end.

(** [remove(index)]: nothing when [removeAt] gives undefined, otherwise one
    'remove' of the item, at the index as it was passed. *)
Definition remove (index : Z) (l : t T) : t T :=
  match removeAt (values l) index with
  | None => l
  | Some (value, rest) =>
      {| values := rest;
         emitted := emitted l ++
           [ {| type := change_remove; oldIndex := index;
                newIndex := (-1);
                oldValues := [value]; newValues := [] |} ] |}
  end.

(** [removeValue(v)]: [remove] at the index of the first item equal to
    [v].  When no item is equal the index is -1, so the last item of a
    list that is not empty is removed. *)
Definition removeValue (v : T) (l : t T) : t T :=
  remove (findFirstIndex v (values l)) l.

(** The array without its first item equal to [v]: what [removeValue]
    leaves when the value is in the array. *)
Fixpoint removeFirst (v : T) (xs : list T) : list T :=
  match xs with
  | [] => []
  | x :: rest => if itemCmp x v then rest else x :: removeFirst v rest
  end.
End RemoveValue.

End ObservableList.

(** ** Signals (@lumino/signaling) *)

(** A signal of the host, seen from the tracker: whether the tracker's
    method is connected to it.  [cells.changed] only ever takes
    [updateConnectedCells] and [settings.changed] only ever takes
    [_onSettingsChanged], each with the tracker as receiver. *)
Definition Signal : Type := bool.

(** [signal.connect(slot, this)]: a connection that exists is not added
    again. *)
Definition connect (sig : Signal) : Signal := true.

(** [signal.disconnect(slot, this)]. *)
Definition disconnect (sig : Signal) : Signal := false.

(** ** Commands (@lumino/commands) *)

(** The registered commands: identifier and label. *)
Definition CommandRegistry : Type := list (string * string).

Definition hasCommand (commands : CommandRegistry) (id : string) : bool :=
  existsb (fun entry => String.eqb (fst entry) id) commands.

Definition label (commands : CommandRegistry) (id : string) : string :=
  match find (fun entry => String.eqb (fst entry) id) commands with
  | Some entry => snd entry
  | None => ""
  end.

(** ** Widgets *)

(** A cell model is known by its identity. *)
Definition ICellModel : Type := nat.

(** Modelled from the spec: [CellToolbarWidget] (celltoolbarwidget.ts) and
    [PositionedButton] (positionedbutton.ts) are not among the sources.  A
    toolbar is bound to one cell model, reads the three collections of its
    tracker by reference, and has one spacer region, whose width starts at
    the left-space value given to the constructor.  A positioned button
    keeps the options it was constructed with; [callback] names the command
    the callback executes. *)
Inductive WidgetKind : Type :=
| CellToolbarWidget (model : ICellModel) (spacerWidth : Z)
| PositionedButton (icon : string) (callback : string)
    (className : option string) (tooltip : string)
| HostWidget (name : string).

Record Widget : Type := {
  kind : WidgetKind;
  classes : list string
}.

Definition addClass (c : string) (w : Widget) : Widget :=
  {| kind := kind w; classes := classes w ++ [c] |}.

Definition hasClass (c : string) (w : Widget) : bool :=
  existsb (String.eqb c) (classes w).

(** A rendered cell: its model and the child widgets of its panel layout,
    first child first. *)
Record Cell : Type := {
  cell_model : ICellModel;
  layout_widgets : list Widget
}.

(** ** The store *)

(** The notebook panel: [panel.content.widgets], the content of
    [panel.context.model.cells] and the connections of its [changed]
    signal. *)
Record NotebookPanel : Type := {
  content_widgets : list Cell;
  model_cells : list ICellModel;
  cells_changed : Signal
}.

(** [settings.composite]: a key holds [None] when its JSON value is null or
    missing. *)
Record Composite : Type := {
  defaultTags : option (list string);
  leftMenu : option (list ICellMenuItem);
  rightMenu : option (list ICellMenuItem);
  leftSpace : option Z
}.

Record ISettings : Type := {
  composite : Composite;
  settings_changed : Signal
}.

(** The private fields of [CellToolbarTracker]. *)
Record CellToolbarTracker : Type := {
  _allTags : ObservableList.t string;
  _commands : CommandRegistry;
  _isDisposed : bool;
  _leftMenuItems : ObservableList.t ICellMenuItem;
  _previousDefaultTags : list string;
  _panel : reference;
  _rightMenuItems : ObservableList.t ICellMenuItem;
  _settings : reference
}.

(** One operation on the widget tree of a cell. *)
Inductive Effect : Type :=
| Disposed (cell : ICellModel) (w : Widget)
| Inserted (cell : ICellModel) (index : nat) (w : Widget)
| Added (cell : ICellModel) (w : Widget).

(** The store.  The settings object is the host's; the tracker reads it
    only through its [_settings] field, which is null when the constructor
    was given no settings source. *)
Record World : Type := {
  panel : NotebookPanel;
  settings : ISettings;
  this : CellToolbarTracker;
  trace : list Effect
}.

(** ** Field updates *)

Definition with_panel (p : NotebookPanel) (w : World) : World :=
  {| panel := p; settings := settings w; this := this w; trace := trace w |}.

Definition with_settings (s : ISettings) (w : World) : World :=
  {| panel := panel w; settings := s; this := this w; trace := trace w |}.

Definition with_content_widgets (cs : list Cell) (p : NotebookPanel)
  : NotebookPanel :=
  {| content_widgets := cs;
     model_cells := model_cells p;
     cells_changed := cells_changed p |}.

Definition with_cells_changed (sig : Signal) (p : NotebookPanel)
  : NotebookPanel :=
  {| content_widgets := content_widgets p;
     model_cells := model_cells p;
     cells_changed := sig |}.

Definition with_settings_changed (sig : Signal) (s : ISettings) : ISettings :=
  {| composite := composite s; settings_changed := sig |}.

Definition with_composite (c : Composite) (w : World) : World :=
  with_settings
    {| composite := c; settings_changed := settings_changed (settings w) |}
    w.

(** The first cell of the model in the widget list is the object that
    [Array.prototype.find] returns; [update_cell] rewrites that object in
    place and leaves every other cell as it is. *)
Fixpoint update_cell (model : ICellModel) (f : Cell -> Cell) (cs : list Cell)
  : list Cell :=
  match cs with
  | [] => []
  | c :: rest =>
      if Nat.eqb (cell_model c) model
      then f c :: rest
      else c :: update_cell model f rest
  end.

Definition with_layout (ws : list Widget) (c : Cell) : Cell :=
  {| cell_model := cell_model c; layout_widgets := ws |}.

(** ** The methods of [CellToolbarTracker] *)

Definition isDisposed (w : World) : bool := _isDisposed (this w).

(** [this._panel.content.widgets.find(widget => widget.model === model)]. *)
Definition _getCell (model : ICellModel) (w : World) : outcome (option Cell) :=
  match _panel (this w) with
  | null => TypeError
  | ref =>
      Ok (find (fun widget => Nat.eqb (cell_model widget) model)
            (content_widgets (panel w)))
  end.

Definition _findToolbarWidgets (cell : Cell) : list Widget :=
  filter (hasClass CELL_BAR_CLASS) (layout_widgets cell).

(** [widget.dispose()] for each widget of [_findToolbarWidgets(cell)]: a
    disposed widget leaves the layout of its parent, so the cell keeps the
    children that do not carry the toolbar class. *)
Definition _removeToolbar (model : ICellModel) (w : World) : outcome World :=
  found <- _getCell model w ;;
  match found with
  | None => Ok w
  | Some cell =>
      let widgets := _findToolbarWidgets cell in
      let remaining :=
        filter (fun x => negb (hasClass CELL_BAR_CLASS x))
          (layout_widgets cell) in
      Ok {| panel :=
              with_content_widgets
                (update_cell model (with_layout remaining)
                   (content_widgets (panel w)))
                (panel w);
            settings := settings w;
            this := this w;
            trace := trace w ++ map (Disposed (cell_model cell)) widgets |}
  end.

(** [(this._settings?.composite['leftSpace'] as number) || 0]. *)
Definition current_leftSpace (w : World) : Z :=
  match _settings (this w) with
  | null => 0%Z
  | ref => or_zero (leftSpace (composite (settings w)))
  end.

(** The button built for one entry of [POSITIONED_BUTTONS]. *)
Definition positioned_button (commands : CommandRegistry)
  (entry : ICellMenuItem) : Widget :=
  let shortName := nth_error (split_colon (command entry)) 1 in
  let button :=
    {| kind :=
         PositionedButton (icon entry) (command entry)
           (match shortName with
            | None => None
            | Some "" => Some ""
            | Some name => Some ("jp-enh-cell-" ++ name)%string
            end)
           (or_string (tooltip entry) (label commands (command entry)));
       classes := [] |} in
  addClass
    ("jp-enh-cell-" ++
       match cellType entry with
       | Some t => CellType_name t
       | None => "all"
       end)%string
    (addClass CELL_BAR_CLASS button).

(** The buttons [POSITIONED_BUTTONS.forEach] constructs, in order. *)
Definition positioned_buttons (commands : CommandRegistry) : list Widget :=
  map (positioned_button commands)
    (filter (fun entry => hasCommand commands (command entry))
       POSITIONED_BUTTONS).

(** The toolbar [_addToolbar] constructs for a model. *)
Definition new_toolbar (model : ICellModel) (w : World) : Widget :=
  addClass CELL_BAR_CLASS
    {| kind := CellToolbarWidget model (current_leftSpace w);
       classes := [] |}.

Definition _addToolbar (model : ICellModel) (w : World) : outcome World :=
  found <- _getCell model w ;;
  match found with
  | None => Ok w
  | Some cell =>
      let toolbar := new_toolbar model w in
      let buttons := positioned_buttons (_commands (this w)) in
      Ok {| panel :=
              with_content_widgets
                (update_cell model
                   (with_layout
                      ((toolbar :: layout_widgets cell) ++ buttons))
                   (content_widgets (panel w)))
                (panel w);
            settings := settings w;
            this := this w;
            trace := trace w
                     ++ Inserted (cell_model cell) 0 toolbar
                        :: map (Added (cell_model cell)) buttons |}
  end.

(** Callback to react to cells list changes. *)
Definition updateConnectedCells (cells : list ICellModel)
  (changed : IChangedArgs ICellModel) (w : World) : outcome World :=
  w' <- forEach _removeToolbar (oldValues changed) w ;;
  forEach _addToolbar (newValues changed) w'.

Definition includes (xs : list string) (x : string) : bool :=
  existsb (String.eqb x) xs.

(** The spacer of every toolbar under the panel node takes the width. *)
Definition set_spacer (width : Z) (x : Widget) : Widget :=
  match kind x with
  | CellToolbarWidget model _ =>
      {| kind := CellToolbarWidget model width; classes := classes x |}
  | _ => x
  end.

Definition set_spacers (width : Z) (cs : list Cell) : list Cell :=
  map (fun c => with_layout (map (set_spacer width) (layout_widgets c)) c) cs.

(** The three collections after a settings change. *)
Definition next_leftMenuItems (c : Composite)
  (items : ObservableList.t ICellMenuItem) : ObservableList.t ICellMenuItem :=
  let leftItems := leftMenu c in
  let cleared :=
    if Nat.ltb 0 (ObservableList.length items)
    then ObservableList.clear items
    else items in
  match leftItems with
  | Some l =>
      if Nat.ltb 0 (List.length l)
      then ObservableList.pushAll l cleared
      else cleared
  | None => ObservableList.pushAll DEFAULT_LEFT_MENU cleared
  end.

Definition next_rightMenuItems (c : Composite)
  (items : ObservableList.t ICellMenuItem) : ObservableList.t ICellMenuItem :=
  let rightItems := or_array (rightMenu c) [] in
  let cleared :=
    if Nat.ltb 0 (ObservableList.length items)
    then ObservableList.clear items
    else items in
  if Nat.ltb 0 (List.length rightItems)
  then ObservableList.pushAll rightItems cleared
  else cleared.

Definition tags_toAdd (previous newDefaultTags : list string) : list string :=
  filter (fun tag => negb (includes previous tag)) newDefaultTags.

Definition tags_toRemove (previous newDefaultTags : list string)
  : list string :=
  filter (fun tag => negb (includes newDefaultTags tag)) previous.

Definition next_allTags (previous newDefaultTags : list string)
  (tags : ObservableList.t string) : ObservableList.t string :=
  let toAdd := tags_toAdd previous newDefaultTags in
  let pushed :=
    if Nat.ltb 0 (List.length toAdd)
    then ObservableList.pushAll toAdd tags
    else tags in
  fold_left (fun l tag => ObservableList.removeValue String.eqb tag l)
    (tags_toRemove previous newDefaultTags) pushed.

(** Call back on settings changes. *)
Definition _onSettingsChanged (w : World) : outcome World :=
  match _settings (this w) with
  | null => TypeError
  | ref =>
      let t := this w in
      let c := composite (settings w) in
      let newDefaultTags := or_array (defaultTags c) [] in
      let t' :=
        {| _allTags :=
             next_allTags (_previousDefaultTags t) newDefaultTags (_allTags t);
           _commands := _commands t;
           _isDisposed := _isDisposed t;
           _leftMenuItems := next_leftMenuItems c (_leftMenuItems t);
           _previousDefaultTags := newDefaultTags;
           _panel := _panel t;
           _rightMenuItems := next_rightMenuItems c (_rightMenuItems t);
           _settings := _settings t |} in
      let leftSpace := or_zero (leftSpace c) in
      match _panel t with
      | null => TypeError
      | ref =>
          Ok {| panel :=
                  with_content_widgets
                    (set_spacers leftSpace (content_widgets (panel w)))
                    (panel w);
                settings := settings w;
                this := t';
                trace := trace w |}
      end
  end.

(** The store once the field initialisers and the three assignments of
    the constructor have run.  Before the call the store holds the notebook
    panel (the cells it renders and its cell list) and the settings object
    (its composite), neither connected to the tracker yet.  [settings_arg]
    is the third argument: [null], or the reference to the settings
    object. *)
Definition initial_store (widgets : list Cell) (cells : list ICellModel)
  (c : Composite) (commands : CommandRegistry) (settings_arg : reference)
  : World :=
  {| panel :=
       {| content_widgets := widgets;
          model_cells := cells;
          cells_changed := false |};
     settings := {| composite := c; settings_changed := false |};
     this :=
       {| _allTags := ObservableList.empty;
          _commands := commands;
          _isDisposed := false;
          _leftMenuItems := ObservableList.empty;
          _previousDefaultTags := [];
          _panel := ref;
          _rightMenuItems := ObservableList.empty;
          _settings := settings_arg |};
     trace := [] |}.

Definition constructor (widgets : list Cell) (cells : list ICellModel)
  (c : Composite) (commands : CommandRegistry) (settings_arg : reference)
  : outcome World :=
  let w0 := initial_store widgets cells c commands settings_arg in
  w1 <- (if truthy (_settings (this w0))
         then
           w' <- _onSettingsChanged w0 ;;
           Ok (with_settings
                 (with_settings_changed
                    (connect (settings_changed (settings w')))
                    (settings w'))
                 w')
         else Ok w0) ;;
  Ok (with_panel
        (with_cells_changed
           (connect (cells_changed (panel w1)))
           (panel w1))
        w1).

Definition dispose (w : World) : outcome World :=
  if isDisposed w then Ok w
  else
    let t := this w in
    let disposed (p : reference) :=
      {| _allTags := _allTags t;
         _commands := _commands t;
         _isDisposed := true;
         _leftMenuItems := _leftMenuItems t;
         _previousDefaultTags := _previousDefaultTags t;
         _panel := p;
         _rightMenuItems := _rightMenuItems t;
         _settings := _settings t |} in
    let settings' :=
      if truthy (_settings t)
      then with_settings_changed
             (disconnect (settings_changed (settings w)))
             (settings w)
      else settings w in
    match _panel t with
    | null => TypeError
    | ref =>
        Ok {| panel :=
                with_cells_changed
                  (disconnect (cells_changed (panel w)))
                  (panel w);
              settings := settings';
              this := disposed null;
              trace := trace w |}
    end.

(** ** The host: what reaches the tracker *)

(** The host changes the cell list: when the handlers run, the panel
    renders [widgets] and the cell list holds [cells]; [changed] is the
    argument of the emission. *)
Record CellsChange : Type := {
  widgets_now : list Cell;
  cells_now : list ICellModel;
  changed_args : IChangedArgs ICellModel
}.

Inductive HostEvent : Type :=
| CellsChanged (change : CellsChange)
| SettingsChanged (c : Composite)
| Dispose.

Definition host_update (change : CellsChange) (w : World) : World :=
  with_panel
    {| content_widgets := widgets_now change;
       model_cells := cells_now change;
       cells_changed := cells_changed (panel w) |}
    w.

(** An emission calls the method of the tracker when it is connected. *)
Definition deliver (ev : HostEvent) (w : World) : outcome World :=
  match ev with
  | CellsChanged change =>
      let w1 := host_update change w in
      if cells_changed (panel w1)
      then updateConnectedCells (cells_now change) (changed_args change) w1
      else Ok w1
  | SettingsChanged c =>
      let w1 := with_composite c w in
      if settings_changed (settings w1)
      then _onSettingsChanged w1
      else Ok w1
  | Dispose => dispose w
  end.

Definition run (evs : list HostEvent) (w : World) : outcome World :=
  forEach deliver evs w.

(** ** What is observed of a world *)

Definition is_toolbar (x : Widget) : bool :=
  match kind x with
  | CellToolbarWidget _ _ => true
  | _ => false
  end.

(** The model a Toolbar Instance is bound to. *)
Definition bound_models (ws : list Widget) : list ICellModel :=
  flat_map
    (fun x =>
       match kind x with
       | CellToolbarWidget model _ => [model]
       | _ => []
       end)
    ws.

(** The live Toolbar Instances of a notebook, each named by the model it is
    bound to, in rendering order. *)
Definition live_toolbars (w : World) : list ICellModel :=
  flat_map (fun c => bound_models (layout_widgets c))
    (content_widgets (panel w)).

(** The live cells: the content of the notebook's cell list. *)
Definition live_cells (w : World) : list ICellModel := model_cells (panel w).

(** One toolbar per live cell, no duplicate, none for a cell that is not
    in the cell list. *)
Definition one_toolbar_per_cell (w : World) : Prop :=
  NoDup (live_cells w) /\ Permutation (live_toolbars w) (live_cells w).

(** The command the callback of a positioned button executes. *)
Definition executed_command (b : Widget) : option string :=
  match kind b with
  | PositionedButton _ callback _ _ => Some callback
  | _ => None
  end.

(** The items a Toolbar Instance of the tracker receives: it holds the
    three collections by reference, so it reads their current content. *)
Definition toolbar_leftMenu (w : World) : list ICellMenuItem :=
  ObservableList.values (_leftMenuItems (this w)).

Definition toolbar_rightMenu (w : World) : list ICellMenuItem :=
  ObservableList.values (_rightMenuItems (this w)).

Definition toolbar_tags (w : World) : list string :=
  ObservableList.values (_allTags (this w)).

(** ** Concrete stores *)

Module Sample.

Definition commands : CommandRegistry :=
  [ ("notebook:run-cell-and-select-next", "Run");
    ("notebook:move-cell-up", "Move Up");
    ("notebook:delete-cell", "Delete") ].

Definition schema_defaults : Composite :=
  {| defaultTags := Some ["parameters"];
     leftMenu := Some DEFAULT_LEFT_MENU;
     rightMenu := None;
     leftSpace := Some 0%Z |}.

Definition content (name : string) : Widget :=
  {| kind := HostWidget name; classes := ["jp-Cell-" ++ name]%string |}.

(** A cell as the notebook renders it, before any toolbar. *)
Definition fresh_cell (model : ICellModel) : Cell :=
  {| cell_model := model;
     layout_widgets := [content "header"; content "inputWrapper"] |}.

Definition added (index : Z) (model : ICellModel)
  : IChangedArgs ICellModel :=
  {| type := change_add; oldIndex := (-1); newIndex := index;
     oldValues := []; newValues := [model] |}.

(** A tracker with a settings source on a notebook of two rendered
    cells, before its constructor decodes the settings. *)
Definition store : World :=
  initial_store [fresh_cell 1; fresh_cell 2] [1; 2] schema_defaults commands
    ref.

(** The world an [Ok] outcome carries ([store] stands in for an
    exception). *)
Definition after (o : outcome World) : World :=
  match o with
  | Ok w => w
  | TypeError => store
  end.

Definition with_defaultTags (tags : list string) : Composite :=
  {| defaultTags := Some tags;
     leftMenu := leftMenu schema_defaults;
     rightMenu := rightMenu schema_defaults;
     leftSpace := leftSpace schema_defaults |}.

(** A tracker constructed with the default tags "a" and "b". *)
Definition tagged_ab : World :=
  after (constructor [fresh_cell 1; fresh_cell 2] [1; 2]
           (with_defaultTags ["a"; "b"]) commands ref).

(** Cell 1 is added to the empty cell list and rendered. *)
Definition cell_1_added : CellsChange :=
  {| widgets_now := [fresh_cell 1];
     cells_now := [1];
     changed_args := added 0 1 |}.

(** A tracker constructed with the schema's defaults on an empty
    notebook. *)
Definition configured : World :=
  after (constructor [] [] schema_defaults commands ref).

(** The same tracker once the addition of cell 1 has reached it. *)
Definition with_cell_1 : World :=
  after (deliver (CellsChanged cell_1_added) configured).

Definition disposed : World := after (dispose with_cell_1).

(** The same addition reaches the tracker a second time; the notebook
    still renders cell 1 by the widget that now carries the toolbar. *)
Definition cell_1_added_again : CellsChange :=
  {| widgets_now := content_widgets (panel with_cell_1);
     cells_now := [1];
     changed_args := added 0 1 |}.

(** The cell list gains cell 1 before the notebook has rendered it. *)
Definition cell_1_unrendered : CellsChange :=
  {| widgets_now := [];
     cells_now := [1];
     changed_args := added 0 1 |}.

(** Cell 2 is added after cell 1 and rendered; the widget of cell 1 is
    carried over. *)
Definition cell_2_added : CellsChange :=
  {| widgets_now := content_widgets (panel with_cell_1) ++ [fresh_cell 2];
     cells_now := [1; 2];
     changed_args := added 1 2 |}.

(** The toolbar of cell 1 under the schema's defaults, and the buttons of
    the two positioned commands that [commands] registers. *)
Definition toolbar_1 : Widget :=
  {| kind := CellToolbarWidget 1 0; classes := ["jp-enh-cell-bar"] |}.

Definition run_button : Widget :=
  {| kind :=
       PositionedButton "ui-components:run"
         "notebook:run-cell-and-select-next"
         (Some "jp-enh-cell-run-cell-and-select-next") "Run";
     classes := ["jp-enh-cell-bar"; "jp-enh-cell-all"] |}.

Definition up_button : Widget :=
  {| kind :=
       PositionedButton "ui-components:caret-up-empty-thin"
         "notebook:move-cell-up"
         (Some "jp-enh-cell-move-cell-up") "Move Up";
     classes := ["jp-enh-cell-bar"; "jp-enh-cell-all"] |}.

(** Cell 1 is moved: the change names it as removed and as added. *)
Definition moved_1 : IChangedArgs ICellModel :=
  {| type := change_move; oldIndex := 0; newIndex := 0;
     oldValues := [1]; newValues := [1] |}.

End Sample.

(** ** What the two toolbar operations do to a cell *)

(** The cell once every child that carries the toolbar class is disposed. *)
Definition strip_toolbars (c : Cell) : Cell :=
  with_layout
    (filter (fun x => negb (hasClass CELL_BAR_CLASS x)) (layout_widgets c)) c.

(** The cell once the toolbar is inserted at index 0 and the buttons are
    added at the end. *)
Definition attach_toolbar (toolbar : Widget) (buttons : list Widget)
  (c : Cell) : Cell :=
  with_layout ((toolbar :: layout_widgets c) ++ buttons) c.

(** Whether the widget list holds a cell of the model. *)
Definition rendered (model : ICellModel) (w : World) : bool :=
  existsb (fun c => Nat.eqb (cell_model c) model) (content_widgets (panel w)).

(** The operations [_addToolbar] does for a model. *)
Definition additions_for (w : World) (model : ICellModel) : list Effect :=
  if rendered model w
  then Inserted model 0 (new_toolbar model w)
       :: map (Added model) (positioned_buttons (_commands (this w)))
  else [].

(** The disposal of a child that carries the toolbar class, on the cell of
    one of the models. *)
Definition is_disposal (models : list ICellModel) (e : Effect) : Prop :=
  exists model x,
    e = Disposed model x /\ In model models
    /\ hasClass CELL_BAR_CLASS x = true.

(** ** The life of a tracker *)

(** The tracker is constructed, then the host events reach it in order. *)
Definition launch (widgets : list Cell) (cells : list ICellModel)
  (c : Composite) (commands : CommandRegistry) (settings_arg : reference)
  (evs : list HostEvent) : outcome World :=
  w0 <- constructor widgets cells c commands settings_arg ;;
  run evs w0.

(** The cell-list changes that reach [updateConnectedCells], each after
    the host has updated its cell list and its widget list. *)
Definition handle_change (change : CellsChange) (w : World) : outcome World :=
  updateConnectedCells (cells_now change) (changed_args change)
    (host_update change w).

Definition handle_changes (changes : list CellsChange) (w : World)
  : outcome World :=
  forEach handle_change changes w.

(** ** Predicates used in the statements *)

(** Every Toolbar Instance among the widgets carries the toolbar class. *)
Definition toolbars_classed (ws : list Widget) : Prop :=
  forall x, In x ws -> is_toolbar x = true ->
            hasClass CELL_BAR_CLASS x = true.

(** The cell holds one Toolbar Instance, bound to the model of the cell. *)
Definition has_own_toolbar (c : Cell) : Prop :=
  bound_models (layout_widgets c) = [cell_model c]
  /\ toolbars_classed (layout_widgets c).

(** The widget list renders the cell list, cell by cell, and every cell
    holds its one toolbar. *)
Record in_correspondence (w : World) : Prop := {
  renders_cells :
    map cell_model (content_widgets (panel w)) = model_cells (panel w);
  cells_distinct : NoDup (model_cells (panel w));
  each_has_toolbar : Forall has_own_toolbar (content_widgets (panel w))
}.

(** The host is in step when a change is handled: its widget list renders
    the cell list after the change, cell by cell; no model is added twice;
    a removed model that is still in the cell list is also an added one;
    and each widget either is carried over from the widget list [before]
    (then, if its model is added, the model is removed too), or is the new
    widget of an added model and holds no Toolbar Instance yet. *)
Record host_in_step (before : list Cell) (change : CellsChange) : Prop := {
  step_renders : map cell_model (widgets_now change) = cells_now change;
  step_distinct : NoDup (cells_now change);
  step_added_distinct : NoDup (newValues (changed_args change));
  step_removed_gone :
    forall m, In m (oldValues (changed_args change)) ->
              In m (cells_now change) ->
              In m (newValues (changed_args change));
  step_widgets :
    Forall
      (fun c =>
         (In c before
          /\ (In (cell_model c) (newValues (changed_args change)) ->
              In (cell_model c) (oldValues (changed_args change))))
         \/ (In (cell_model c) (newValues (changed_args change))
             /\ bound_models (layout_widgets c) = []))
      (widgets_now change)
}.

(** The host is in step at every change of the sequence. *)
Fixpoint all_in_step (changes : list CellsChange) (w : World) : Prop :=
  match changes with
  | [] => True
  | change :: rest =>
      host_in_step (content_widgets (panel w)) change
      /\ forall w', handle_change change w = Ok w' -> all_in_step rest w'
  end.

(** What holds of the tracker's references and connections in every world
    of its life. *)
Record consistent (w : World) : Prop := {
  live_has_panel : _isDisposed (this w) = false -> _panel (this w) = ref;
  disposed_has_none : _isDisposed (this w) = true -> _panel (this w) = null;
  cells_connected_live :
    cells_changed (panel w) = true -> _isDisposed (this w) = false;
  settings_connected_live :
    settings_changed (settings w) = true ->
    _settings (this w) = ref /\ _isDisposed (this w) = false
}.

(** A tracker without settings source that has never decoded settings. *)
Record unconfigured (w : World) : Prop := {
  no_settings : _settings (this w) = null;
  no_settings_connection : settings_changed (settings w) = false;
  no_tag : _allTags (this w) = ObservableList.empty;
  no_left_item : _leftMenuItems (this w) = ObservableList.empty;
  no_right_item : _rightMenuItems (this w) = ObservableList.empty;
  no_previous_tag : _previousDefaultTags (this w) = []
}.

(** The part of the store that handling a cell-list change leaves alone. *)
Record same_tracker (w w' : World) : Prop := {
  same_this : this w' = this w;
  same_settings : settings w' = settings w;
  same_connection : cells_changed (panel w') = cells_changed (panel w);
  same_cells : model_cells (panel w') = model_cells (panel w);
  same_models :
    map cell_model (content_widgets (panel w'))
    = map cell_model (content_widgets (panel w))
}.

(** The events a collection has emitted since an earlier state of it. *)
Definition emitted_since {T : Type} (before after : ObservableList.t T)
  (evs : list (IChangedArgs T)) : Prop :=
  ObservableList.emitted after = ObservableList.emitted before ++ evs.

(** The first occurrence of each tag removed in turn: what the calls of
    [removeValue] leave when every tag is in the array as its turn comes. *)
Definition remove_each (tags : list string) (vs : list string) : list string :=
  fold_left (fun acc tag => ObservableList.removeFirst String.eqb tag acc)
    tags vs.

(** The emission of [pushAll] on a collection of [size] items, when the
    tracker calls it: only for a list that is not empty. *)
Definition addition_events (size : nat) (toAdd : list string)
  : list (IChangedArgs string) :=
  match toAdd with
  | [] => []
  | _ :: _ =>
      [ {| type := change_add; oldIndex := (-1); newIndex := Z.of_nat size;
           oldValues := []; newValues := toAdd |} ]
  end.

(** The emission that removes the one tag, found at an index of the
    array. *)
Definition removal_of (tag : string) (ev : IChangedArgs string) : Prop :=
  type ev = change_remove
  /\ (0 <= oldIndex ev)%Z
  /\ newIndex ev = (-1)%Z
  /\ oldValues ev = [tag]
  /\ newValues ev = [].

(** ** The widget extension *)

(** [CellBarExtension]: it keeps the command registry and the settings
    source, and gives both to the tracker of every notebook. *)
Module CellBarExtension.

Record t : Type := {
  _commands : CommandRegistry;
  _settings : reference
}.

(** [createNew(panel)]; the panel is the one of the store, which renders
    [widgets] and whose cell list holds [cells]. *)
Definition createNew (ext : t) (widgets : list Cell)
  (cells : list ICellModel) (c : Composite) : outcome World :=
  constructor widgets cells c (_commands ext) (_settings ext).

Definition constructor (commands : CommandRegistry) (settings : reference)
  : t :=
  {| _commands := commands; _settings := settings |}.

End CellBarExtension.

(** ** More of what is observed *)

(** The widths of the spacers of the toolbars among the widgets. *)
Definition spacer_widths (ws : list Widget) : list Z :=
  flat_map
    (fun x =>
       match kind x with
       | CellToolbarWidget _ width => [width]
       | _ => []
       end)
    ws.

Definition live_spacers (w : World) : list Z :=
  flat_map (fun c => spacer_widths (layout_widgets c))
    (content_widgets (panel w)).

(** A child of a cell before and after a settings change that sets the
    left space [width]: the classes stay; a toolbar stays bound to its
    model and its spacer takes the width; any other widget stays as it
    is. *)
Definition resized (width : Z) (x x' : Widget) : Prop :=
  classes x' = classes x
  /\ match kind x with
     | CellToolbarWidget model _ => kind x' = CellToolbarWidget model width
     | _ => kind x' = kind x
     end.

(** The cells of a panel before and after such a change: the same cells
    in the same order, each with the same children in the same order, up
    to the spacers. *)
Definition cells_resized (width : Z) (before after : list Cell) : Prop :=
  Forall2
    (fun c c' =>
       cell_model c' = cell_model c
       /\ Forall2 (resized width) (layout_widgets c) (layout_widgets c'))
    before after.

(** The emissions of a collection that held [old] when a settings change
    replaces its content by [items]: one 'remove' of the old content when
    there was some, then one 'add' of the items when there are some. *)
Definition replace_events {T : Type} (old items : list T)
  : list (IChangedArgs T) :=
  match old with
  | [] => []
  | _ :: _ =>
      [ {| type := change_remove; oldIndex := 0; newIndex := 0;
           oldValues := old; newValues := [] |} ]
  end
  ++ match items with
     | [] => []
     | _ :: _ =>
         [ {| type := change_add; oldIndex := (-1); newIndex := 0;
              oldValues := []; newValues := items |} ]
     end.

(** The left-menu items a composite asks for. *)
Definition wanted_leftMenu (c : Composite) : list ICellMenuItem :=
  match leftMenu c with
  | Some l => l
  | None => DEFAULT_LEFT_MENU
  end.

(** The collections of a live tracker that has a settings source agree
    with the composite of the settings object, and the tracker is connected
    to the settings signal. *)
Definition synced (w : World) : Prop :=
  _isDisposed (this w) = false ->
  _settings (this w) = ref ->
  settings_changed (settings w) = true
  /\ toolbar_leftMenu w = wanted_leftMenu (composite (settings w))
  /\ toolbar_rightMenu w = or_array (rightMenu (composite (settings w))) []
  /\ _previousDefaultTags (this w)
     = or_array (defaultTags (composite (settings w))) [].

(** ** Basic facts *)

Lemma onSettingsChanged_Ok (w : World) :
  _settings (this w) = ref ->
  _panel (this w) = ref ->
  exists w', _onSettingsChanged w = Ok w'
    /\ _leftMenuItems (this w')
       = next_leftMenuItems (composite (settings w)) (_leftMenuItems (this w))
    /\ _rightMenuItems (this w')
       = next_rightMenuItems (composite (settings w))
           (_rightMenuItems (this w))
    /\ _allTags (this w')
       = next_allTags (_previousDefaultTags (this w))
           (or_array (defaultTags (composite (settings w))) [])
           (_allTags (this w))
    /\ _previousDefaultTags (this w')
       = or_array (defaultTags (composite (settings w))) [].
Proof.
  intros Hs Hp. unfold _onSettingsChanged. rewrite Hs, Hp.
  eexists; split; [reflexivity|]. simpl. auto.
Qed.

Lemma clear_if_nonempty_values {T : Type} (l : ObservableList.t T) :
  ObservableList.values
    (if Nat.ltb 0 (ObservableList.length l)
     then ObservableList.clear l else l) = [].
Proof.
  unfold ObservableList.length.
  destruct l as [vs em]; simpl. destruct vs; reflexivity.
Qed.

Lemma next_leftMenuItems_values (c : Composite)
  (items : ObservableList.t ICellMenuItem) :
  ObservableList.values (next_leftMenuItems c items)
  = match leftMenu c with
    | Some l => l
    | None => DEFAULT_LEFT_MENU
    end.
Proof.
  unfold next_leftMenuItems.
  destruct (leftMenu c) as [l|].
  - destruct l as [|x l]; simpl Nat.ltb; cbv iota.
    + apply clear_if_nonempty_values.
    + unfold ObservableList.pushAll; cbn [ObservableList.values].
      rewrite clear_if_nonempty_values. reflexivity.
  - unfold ObservableList.pushAll; cbn [ObservableList.values].
    rewrite clear_if_nonempty_values. reflexivity.
Qed.

Lemma next_rightMenuItems_values (c : Composite)
  (items : ObservableList.t ICellMenuItem) :
  ObservableList.values (next_rightMenuItems c items)
  = or_array (rightMenu c) [].
Proof.
  unfold next_rightMenuItems.
  destruct (or_array (rightMenu c) []) as [|x l]; simpl Nat.ltb; cbv iota.
  - apply clear_if_nonempty_values.
  - unfold ObservableList.pushAll; cbn [ObservableList.values].
    rewrite clear_if_nonempty_values. reflexivity.
Qed.

(** ** Settings: the left menu *)

(** C2.  Decoding a settings change whose [leftMenu] is null leaves the
    left-menu collection holding exactly the built-in default set, which has
    four items; decoding one whose [leftMenu] is the empty list leaves the
    collection holding no item. *)
Theorem leftMenu_null_is_default_empty_is_none
  (w : World) (tags : option (list string))
  (right : option (list ICellMenuItem)) (space : option Z) :
  _settings (this w) = ref ->
  _panel (this w) = ref ->
  (exists w',
      _onSettingsChanged
        (with_composite
           {| defaultTags := tags; leftMenu := None;
              rightMenu := right; leftSpace := space |} w) = Ok w'
      /\ toolbar_leftMenu w' = DEFAULT_LEFT_MENU
      /\ List.length (toolbar_leftMenu w') = 4)
  /\ (exists w',
      _onSettingsChanged
        (with_composite
           {| defaultTags := tags; leftMenu := Some [];
              rightMenu := right; leftSpace := space |} w) = Ok w'
      /\ toolbar_leftMenu w' = []
      /\ List.length (toolbar_leftMenu w') = 0).
Proof.
  intros Hs Hp. split.
  - destruct (onSettingsChanged_Ok
                (with_composite
                   {| defaultTags := tags; leftMenu := None;
                      rightMenu := right; leftSpace := space |} w) Hs Hp)
      as (w' & Hrun & Hleft & _).
    exists w'. split; [exact Hrun|].
    unfold toolbar_leftMenu. rewrite Hleft, next_leftMenuItems_values.
    simpl. auto.
  - destruct (onSettingsChanged_Ok
                (with_composite
                   {| defaultTags := tags; leftMenu := Some [];
                      rightMenu := right; leftSpace := space |} w) Hs Hp)
      as (w' & Hrun & Hleft & _).
    exists w'. split; [exact Hrun|].
    unfold toolbar_leftMenu. rewrite Hleft, next_leftMenuItems_values.
    simpl. auto.
Qed.

Lemma leftMenu_null_is_default_empty_is_none_witness :
  (exists w',
      _onSettingsChanged
        (with_composite
           {| defaultTags := Some ["x"]; leftMenu := None;
              rightMenu := None; leftSpace := Some 10%Z |} Sample.store)
      = Ok w'
      /\ toolbar_leftMenu w' = DEFAULT_LEFT_MENU
      /\ List.length (toolbar_leftMenu w') = 4)
  /\ (exists w',
      _onSettingsChanged
        (with_composite
           {| defaultTags := Some ["x"]; leftMenu := Some [];
              rightMenu := None; leftSpace := Some 10%Z |} Sample.store)
      = Ok w'
      /\ toolbar_leftMenu w' = []
      /\ List.length (toolbar_leftMenu w') = 0).
Proof.
  apply (leftMenu_null_is_default_empty_is_none
           Sample.store (Some ["x"]) None (Some 10%Z));
    reflexivity.
Defined.

(** ** Settings: the right menu *)

(** C3, as the spec words it, fails on the sample store: decoding a null
    [rightMenu] and decoding an empty [rightMenu] leave the same tracker
    and the same panel, with no right-menu item in either case; null does
    not bring in a default set. *)
Lemma rightMenu_null_not_distinct_from_empty :
  exists w1 w2,
    _onSettingsChanged
      (with_composite
         {| defaultTags := Some ["x"]; leftMenu := None;
            rightMenu := None; leftSpace := Some 10%Z |} Sample.store)
    = Ok w1
    /\ _onSettingsChanged
         (with_composite
            {| defaultTags := Some ["x"]; leftMenu := None;
               rightMenu := Some []; leftSpace := Some 10%Z |} Sample.store)
       = Ok w2
    /\ toolbar_rightMenu w1 = []
    /\ toolbar_rightMenu w2 = []
    /\ this w1 = this w2
    /\ panel w1 = panel w2.
Proof.
  do 2 eexists. repeat split; reflexivity.
Qed.

(** C3, amended.  Decoding a settings change treats a null [rightMenu] as
    the empty list: both leave the same tracker state and panel, with no
    right-menu item; a list of items leaves the right-menu collection
    holding exactly these items. *)
Theorem rightMenu_null_is_empty
  (w : World) (tags : option (list string))
  (left : option (list ICellMenuItem)) (space : option Z) :
  _settings (this w) = ref ->
  _panel (this w) = ref ->
  (exists w1 w2,
      _onSettingsChanged
        (with_composite
           {| defaultTags := tags; leftMenu := left;
              rightMenu := None; leftSpace := space |} w) = Ok w1
      /\ _onSettingsChanged
           (with_composite
              {| defaultTags := tags; leftMenu := left;
                 rightMenu := Some []; leftSpace := space |} w) = Ok w2
      /\ toolbar_rightMenu w1 = []
      /\ toolbar_rightMenu w2 = []
      /\ this w1 = this w2
      /\ panel w1 = panel w2)
  /\ (forall items : list ICellMenuItem,
        exists w',
          _onSettingsChanged
            (with_composite
               {| defaultTags := tags; leftMenu := left;
                  rightMenu := Some items; leftSpace := space |} w) = Ok w'
          /\ toolbar_rightMenu w' = items).
Proof.
  intros Hs Hp. split.
  - unfold _onSettingsChanged, with_composite, with_settings.
    cbn [this settings composite]. rewrite Hs, Hp.
    do 2 eexists. split; [reflexivity|]. split; [reflexivity|].
    unfold toolbar_rightMenu. cbn [this _rightMenuItems].
    rewrite !next_rightMenuItems_values. cbn.
    repeat split; reflexivity.
  - intros items.
    destruct (onSettingsChanged_Ok
                (with_composite
                   {| defaultTags := tags; leftMenu := left;
                      rightMenu := Some items; leftSpace := space |} w) Hs Hp)
      as (w' & Hrun & _ & Hright & _).
    exists w'. split; [exact Hrun|].
    unfold toolbar_rightMenu. rewrite Hright, next_rightMenuItems_values.
    reflexivity.
Qed.

Lemma rightMenu_null_is_empty_witness :
  exists w1 w2,
    _onSettingsChanged
      (with_composite
         {| defaultTags := Some ["x"]; leftMenu := None;
            rightMenu := None; leftSpace := Some 10%Z |} Sample.store)
    = Ok w1
    /\ _onSettingsChanged
         (with_composite
            {| defaultTags := Some ["x"]; leftMenu := None;
               rightMenu := Some []; leftSpace := Some 10%Z |} Sample.store)
       = Ok w2
    /\ toolbar_rightMenu w1 = []
    /\ toolbar_rightMenu w2 = []
    /\ this w1 = this w2
    /\ panel w1 = panel w2.
Proof.
  apply (rightMenu_null_is_empty
           Sample.store (Some ["x"]) None (Some 10%Z));
    reflexivity.
Defined.

(** ** Settings: the default tags *)

Lemma includes_In (xs : list string) (x : string) :
  includes xs x = true <-> In x xs.
Proof.
  unfold includes. rewrite existsb_exists. split.
  - intros (y & Hy & Heq). apply String.eqb_eq in Heq. subst. exact Hy.
  - intros H. exists x. split; [exact H | apply String.eqb_refl].
Qed.

Lemma tags_toAdd_In (previous newTags : list string) (tag : string) :
  In tag (tags_toAdd previous newTags)
  <-> In tag newTags /\ ~ In tag previous.
Proof.
  unfold tags_toAdd. rewrite filter_In, negb_true_iff.
  rewrite <- (includes_In previous tag).
  destruct (includes previous tag); intuition congruence.
Qed.

Lemma tags_toRemove_In (previous newTags : list string) (tag : string) :
  In tag (tags_toRemove previous newTags)
  <-> In tag previous /\ ~ In tag newTags.
Proof.
  unfold tags_toRemove. rewrite filter_In, negb_true_iff.
  rewrite <- (includes_In newTags tag).
  destruct (includes newTags tag); intuition congruence.
Qed.

Section RemoveValueFacts.
Variable T : Type.
Variable itemCmp : T -> T -> bool.

(** The index [findFirstIndex] gives: -1 when no item is equal to the
    value, otherwise the place of the first such item, where [removeAt]
    takes it out. *)
Lemma findFirstIndex_from_spec (v : T) (xs : list T) (i : Z) :
  (ObservableList.findFirstIndex_from itemCmp v i xs = (-1)%Z
   /\ forall x, In x xs -> itemCmp x v = false)
  \/ (exists k x,
        ObservableList.findFirstIndex_from itemCmp v i xs
        = (i + Z.of_nat k)%Z
        /\ nth_error xs k = Some x
        /\ itemCmp x v = true
        /\ firstn k xs ++ skipn (S k) xs
           = ObservableList.removeFirst itemCmp v xs).
Proof.
  revert i. induction xs as [|y rest IH]; intros i; simpl.
  - left. split; [reflexivity | intros x []].
  - destruct (itemCmp y v) eqn:E.
    + right. exists 0, y. rewrite Z.add_0_r. auto.
    + destruct (IH (i + 1)%Z) as [[H1 H2] | (k & x & H1 & H2 & H3 & H4)].
      * left. split; [exact H1|].
        intros x [<-|Hx]; [exact E | exact (H2 x Hx)].
      * right. exists (S k), x. split; [rewrite H1; lia|].
        split; [exact H2|]. split; [exact H3|].
        simpl in *. rewrite H4. reflexivity.
Qed.

Lemma removeAt_nth (xs : list T) (k : nat) (x : T) :
  nth_error xs k = Some x ->
  ObservableList.removeAt xs (Z.of_nat k)
  = Some (x, firstn k xs ++ skipn (S k) xs).
Proof.
  intros H.
  assert (Hk : k < List.length xs)
    by (apply nth_error_Some; rewrite H; discriminate).
  assert (E1 : (Z.of_nat k <? 0)%Z = false) by (apply Z.ltb_ge; lia).
  assert (E2 : (Z.of_nat (List.length xs) <=? Z.of_nat k)%Z = false)
    by (apply Z.leb_gt; lia).
  unfold ObservableList.removeAt. cbv zeta. rewrite E1. rewrite E1, E2.
  cbn [orb]. rewrite Nat2Z.id, H. reflexivity.
Qed.

(** [removeValue] of a value that an item of the array is equal to: the
    first such item leaves and one 'remove' names it. *)
Lemma removeValue_present (v : T) (l : ObservableList.t T) :
  (exists x, In x (ObservableList.values l) /\ itemCmp x v = true) ->
  exists index x,
    (0 <= index)%Z /\ itemCmp x v = true
    /\ ObservableList.removeValue itemCmp v l
       = {| ObservableList.values :=
              ObservableList.removeFirst itemCmp v (ObservableList.values l);
            ObservableList.emitted :=
              ObservableList.emitted l ++
              [ {| type := change_remove; oldIndex := index;
                   newIndex := (-1);
                   oldValues := [x]; newValues := [] |} ] |}.
Proof.
  intros (y & Hy & Ey).
  unfold ObservableList.removeValue, ObservableList.remove,
    ObservableList.findFirstIndex.
  destruct (findFirstIndex_from_spec v (ObservableList.values l) 0)
    as [[_ Hnone] | (k & x & Hidx & Hnth & Hx & Hrest)].
  - rewrite (Hnone y Hy) in Ey. discriminate.
  - rewrite Hidx. simpl. rewrite (removeAt_nth _ _ Hnth), Hrest.
    exists (Z.of_nat k), x. split; [lia|]. split; [exact Hx | reflexivity].
Qed.
End RemoveValueFacts.

Lemma removeFirst_count_other (v tag : string) (xs : list string) :
  v <> tag ->
  count_occ string_dec (ObservableList.removeFirst String.eqb v xs) tag
  = count_occ string_dec xs tag.
Proof.
  intros Hne. induction xs as [|x rest IH]; simpl; [reflexivity|].
  destruct (String.eqb_spec x v) as [->|Hxv].
  - destruct (string_dec v tag); [contradiction | reflexivity].
  - simpl. destruct (string_dec x tag); rewrite IH; reflexivity.
Qed.

Lemma remove_each_count_other (tags : list string) (tag : string)
  (xs : list string) :
  ~ In tag tags ->
  count_occ string_dec (remove_each tags xs) tag = count_occ string_dec xs tag.
Proof.
  unfold remove_each. revert xs.
  induction tags as [|v rest IH]; intros xs Hnot; simpl; [reflexivity|].
  rewrite IH by (intros H; apply Hnot; right; exact H).
  apply removeFirst_count_other. intros ->. apply Hnot. left. reflexivity.
Qed.

Lemma removeFirst_count_same (v : string) (xs : list string) :
  count_occ string_dec (ObservableList.removeFirst String.eqb v xs) v
  = pred (count_occ string_dec xs v).
Proof.
  induction xs as [|x rest IH]; simpl; [reflexivity|].
  destruct (String.eqb_spec x v) as [->|Hxv].
  - destruct (string_dec v v); [reflexivity | contradiction].
  - simpl. destruct (string_dec x v); [contradiction | exact IH].
Qed.

(** Every tag is in the array as often as the tags to remove name it. *)
Lemma present_step (v : string) (rest xs : list string) :
  (forall tag, count_occ string_dec (v :: rest) tag
               <= count_occ string_dec xs tag) ->
  In v xs
  /\ forall tag, count_occ string_dec rest tag
                 <= count_occ string_dec
                      (ObservableList.removeFirst String.eqb v xs) tag.
Proof.
  intros H. split.
  - apply (count_occ_In string_dec). specialize (H v). simpl in H.
    destruct (string_dec v v); [lia | contradiction].
  - intros tag. specialize (H tag). simpl in H.
    destruct (string_dec v tag) as [->|Hne].
    + rewrite removeFirst_count_same. lia.
    + rewrite (removeFirst_count_other xs Hne). exact H.
Qed.

(** The calls of [removeValue] for tags that are all in the collection:
    the first occurrence of each leaves, with one 'remove' for each, in
    order. *)
Lemma remove_each_present (tags : list string) (l : ObservableList.t string) :
  (forall tag, count_occ string_dec tags tag
               <= count_occ string_dec (ObservableList.values l) tag) ->
  ObservableList.values
    (fold_left (fun acc tag => ObservableList.removeValue String.eqb tag acc)
       tags l)
  = remove_each tags (ObservableList.values l)
  /\ exists removals,
       emitted_since l
         (fold_left
            (fun acc tag => ObservableList.removeValue String.eqb tag acc)
            tags l)
         removals
       /\ Forall2 removal_of tags removals.
Proof.
  unfold remove_each, emitted_since. revert l.
  induction tags as [|v rest IH]; intros l Hpresent; simpl.
  - split; [reflexivity|]. exists []. rewrite app_nil_r.
    split; [reflexivity | constructor].
  - destruct (@present_step _ _ _ Hpresent) as [Hin Hrest].
    destruct (removeValue_present String.eqb v l) as (index & x & Hi & Hx & Hrun).
    { exists v. split; [exact Hin | apply String.eqb_refl]. }
    apply String.eqb_eq in Hx. subst x.
    rewrite Hrun.
    match goal with
    | |- context [fold_left _ rest ?l1] =>
        destruct (IH l1 Hrest) as (Hvals & removals & Hem & Hall)
    end.
    split; [exact Hvals|].
    eexists. split.
    + rewrite Hem. simpl. rewrite <- app_assoc. reflexivity.
    + constructor; [|exact Hall].
      unfold removal_of. simpl. auto.
Qed.

Lemma remove_each_count_present (tags : list string) (tag : string)
  (xs : list string) :
  (forall t, count_occ string_dec tags t <= count_occ string_dec xs t) ->
  count_occ string_dec (remove_each tags xs) tag
  + count_occ string_dec tags tag
  = count_occ string_dec xs tag.
Proof.
  unfold remove_each. revert xs.
  induction tags as [|v rest IH]; intros xs Hpresent; simpl fold_left.
  - simpl. lia.
  - destruct (@present_step _ _ _ Hpresent) as [Hin Hrest].
    specialize (IH _ Hrest).
    apply (count_occ_In string_dec) in Hin.
    simpl count_occ at 2. destruct (string_dec v tag) as [->|Hne].
    + rewrite removeFirst_count_same in IH. lia.
    + rewrite (removeFirst_count_other xs Hne) in IH. exact IH.
Qed.

Lemma next_allTags_present (previous newTags : list string)
  (tags : ObservableList.t string) :
  (forall tag, count_occ string_dec (tags_toRemove previous newTags) tag
               <= count_occ string_dec (ObservableList.values tags) tag) ->
  ObservableList.values (next_allTags previous newTags tags)
  = remove_each (tags_toRemove previous newTags)
      (ObservableList.values tags ++ tags_toAdd previous newTags)
  /\ exists removals,
       emitted_since tags (next_allTags previous newTags tags)
         (addition_events (List.length (ObservableList.values tags))
            (tags_toAdd previous newTags)
          ++ removals)
       /\ Forall2 removal_of (tags_toRemove previous newTags) removals.
Proof.
  intros Hpresent. unfold next_allTags.
  set (toAdd := tags_toAdd previous newTags).
  set (pushed := if Nat.ltb 0 (List.length toAdd)
                 then ObservableList.pushAll toAdd tags else tags).
  assert (Hpushed : ObservableList.values pushed
                    = ObservableList.values tags ++ toAdd
                    /\ emitted_since tags pushed
                         (addition_events
                            (List.length (ObservableList.values tags)) toAdd)).
  { subst pushed. unfold emitted_since.
    destruct toAdd as [|x rest]; simpl.
    - rewrite !app_nil_r. auto.
    - auto. }
  destruct Hpushed as [Hvals Hem].
  destruct (remove_each_present (tags_toRemove previous newTags) pushed)
    as (Hv & removals & Hem2 & Hall).
  { intros tag. rewrite Hvals, count_occ_app.
    specialize (Hpresent tag). lia. }
  split; [rewrite Hv, Hvals; reflexivity|].
  exists removals. split; [|exact Hall].
  unfold emitted_since in *. rewrite Hem2, Hem, app_assoc. reflexivity.
Qed.

(** C4.  The tag update is not a diff for every settings change.  A
    tracker is constructed with the default tags "a", "b"; the settings
    change to "a", "a", "b", which changes nothing, then to "b".  The last
    change appends nothing and calls [removeValue] for "a" twice: the
    first call removes "a"; the second finds no "a", and [remove(-1)]
    takes the last item, "b", a tag of both lists, out of the collection,
    which ends empty.  Likewise from "a" over "a", "a" to "b" the appended
    "b" is removed again. *)
Theorem duplicate_default_tag_removes_another_tag :
  exists w1 w2,
    launch [] [] (Sample.with_defaultTags ["a"; "b"]) Sample.commands ref
      [SettingsChanged (Sample.with_defaultTags ["a"; "a"; "b"])] = Ok w1
    /\ toolbar_tags w1 = ["a"; "b"]
    /\ _previousDefaultTags (this w1) = ["a"; "a"; "b"]
    /\ deliver (SettingsChanged (Sample.with_defaultTags ["b"])) w1 = Ok w2
    /\ tags_toAdd (_previousDefaultTags (this w1)) ["b"] = []
    /\ tags_toRemove (_previousDefaultTags (this w1)) ["b"] = ["a"; "a"]
    /\ toolbar_tags w2 = []
    /\ emitted_since (_allTags (this w1)) (_allTags (this w2))
         [ {| type := change_remove; oldIndex := 0; newIndex := (-1);
              oldValues := ["a"]; newValues := [] |};
           {| type := change_remove; oldIndex := (-1); newIndex := (-1);
              oldValues := ["b"]; newValues := [] |} ]
    /\ exists w3,
         launch [] [] (Sample.with_defaultTags ["a"]) Sample.commands ref
           [SettingsChanged (Sample.with_defaultTags ["a"; "a"]);
            SettingsChanged (Sample.with_defaultTags ["b"])] = Ok w3
         /\ _previousDefaultTags (this w3) = ["b"]
         /\ toolbar_tags w3 = [].
Proof.
  do 2 eexists. split; [reflexivity|].
  repeat (split; [reflexivity|]).
  eexists. repeat split; reflexivity.
Qed.

(** ** Models without a rendering widget *)

(** C8.  When no widget of the notebook's widget list has the model, both
    [_addToolbar] and [_removeToolbar] return normally and leave the whole
    store as it was: no widget is created, none is disposed. *)
Theorem unrendered_model_is_skipped (w : World) (model : ICellModel) :
  _getCell model w = Ok None ->
  _addToolbar model w = Ok w /\ _removeToolbar model w = Ok w.
Proof.
  intros H. unfold _addToolbar, _removeToolbar. rewrite H. simpl. auto.
Qed.

Lemma unrendered_model_is_skipped_witness :
  _addToolbar 7 Sample.with_cell_1 = Ok Sample.with_cell_1
  /\ _removeToolbar 7 Sample.with_cell_1 = Ok Sample.with_cell_1.
Proof.
  apply (unrendered_model_is_skipped Sample.with_cell_1 7). reflexivity.
Defined.

(** ** Dispose *)

(** C6.  After a call of [dispose] that returned, the tracker is disposed
    and every later call returns at once with the store unchanged: no
    disconnection, no change of any field, no operation on a widget. *)
Theorem dispose_is_idempotent (w w' : World) :
  dispose w = Ok w' ->
  isDisposed w' = true
  /\ dispose w' = Ok w'
  /\ forall n : nat, forEach (fun _ : unit => dispose) (repeat tt n) w' = Ok w'.
Proof.
  intros H.
  assert (Hd : isDisposed w' = true).
  { unfold dispose in H. destruct (isDisposed w) eqn:E.
    - injection H as <-. exact E.
    - destruct (_panel (this w)); [discriminate|].
      injection H as <-. reflexivity. }
  assert (Hagain : dispose w' = Ok w').
  { unfold dispose. rewrite Hd. reflexivity. }
  repeat split; auto.
  induction n as [|n IH]; simpl; [reflexivity|].
  rewrite Hagain. simpl. exact IH.
Qed.

Lemma dispose_is_idempotent_witness :
  dispose Sample.with_cell_1 = Ok Sample.disposed
  /\ isDisposed Sample.disposed = true
  /\ dispose Sample.disposed = Ok Sample.disposed
  /\ forall n : nat,
       forEach (fun _ : unit => dispose) (repeat tt n) Sample.disposed
       = Ok Sample.disposed.
Proof.
  split; [reflexivity|].
  apply (dispose_is_idempotent Sample.with_cell_1). reflexivity.
Defined.

(** ** The widget list under [update_cell] *)

Section UpdateCell.
Variable f : Cell -> Cell.
Hypothesis f_keeps_model : forall c, cell_model (f c) = cell_model c.

Lemma update_cell_models (model : ICellModel) (cs : list Cell) :
  map cell_model (update_cell model f cs) = map cell_model cs.
Proof.
  induction cs as [|c rest IH]; simpl; [reflexivity|].
  destruct (Nat.eqb (cell_model c) model); simpl.
  - rewrite f_keeps_model. reflexivity.
  - rewrite IH. reflexivity.
Qed.

Lemma find_update_cell_same (model : ICellModel) (cs : list Cell) :
  find (fun c => Nat.eqb (cell_model c) model) (update_cell model f cs)
  = option_map f (find (fun c => Nat.eqb (cell_model c) model) cs).
Proof.
  induction cs as [|c rest IH]; simpl; [reflexivity|].
  destruct (Nat.eqb (cell_model c) model) eqn:E; simpl.
  - rewrite f_keeps_model, E. reflexivity.
  - rewrite E. exact IH.
Qed.

Lemma find_update_cell_other (model other : ICellModel) (cs : list Cell) :
  other <> model ->
  find (fun c => Nat.eqb (cell_model c) other) (update_cell model f cs)
  = find (fun c => Nat.eqb (cell_model c) other) cs.
Proof.
  intros Hne. induction cs as [|c rest IH]; simpl; [reflexivity|].
  destruct (Nat.eqb (cell_model c) model) eqn:E; simpl.
  - rewrite f_keeps_model.
    apply Nat.eqb_eq in E. rewrite E.
    destruct (Nat.eqb_spec model other); [congruence | reflexivity].
  - destruct (Nat.eqb (cell_model c) other); [reflexivity | exact IH].
Qed.
End UpdateCell.

Lemma update_cell_absent (model : ICellModel) (f : Cell -> Cell)
  (cs : list Cell) :
  find (fun c => Nat.eqb (cell_model c) model) cs = None ->
  update_cell model f cs = cs.
Proof.
  induction cs as [|c rest IH]; simpl; [reflexivity|].
  destruct (Nat.eqb (cell_model c) model); [discriminate|].
  intros H. f_equal. exact (IH H).
Qed.

Lemma update_cell_found (model : ICellModel) (f g : Cell -> Cell)
  (cs : list Cell) (cell : Cell) :
  find (fun c => Nat.eqb (cell_model c) model) cs = Some cell ->
  f cell = g cell ->
  update_cell model f cs = update_cell model g cs.
Proof.
  induction cs as [|c rest IH]; simpl; [discriminate|].
  destruct (Nat.eqb (cell_model c) model).
  - intros [= ->] H. rewrite H. reflexivity.
  - intros H1 H2. f_equal. exact (IH H1 H2).
Qed.

Lemma find_rendered (model : ICellModel) (w : World) :
  rendered model w
  = match find (fun c => Nat.eqb (cell_model c) model)
            (content_widgets (panel w)) with
    | Some _ => true
    | None => false
    end.
Proof.
  unfold rendered.
  induction (content_widgets (panel w)) as [|c rest IH]; simpl;
    [reflexivity|].
  destruct (Nat.eqb (cell_model c) model); [reflexivity | exact IH].
Qed.

Lemma find_cell_model (model : ICellModel) (cs : list Cell) (cell : Cell) :
  find (fun c => Nat.eqb (cell_model c) model) cs = Some cell ->
  cell_model cell = model.
Proof.
  intros H. apply find_some in H. destruct H as [_ H].
  apply Nat.eqb_eq. exact H.
Qed.

(** ** The two toolbar operations on the store *)

Lemma removeToolbar_spec (model : ICellModel) (w : World) :
  _panel (this w) = ref ->
  exists w',
    _removeToolbar model w = Ok w'
    /\ same_tracker w w'
    /\ content_widgets (panel w')
       = update_cell model strip_toolbars (content_widgets (panel w))
    /\ trace w'
       = trace w
         ++ match find (fun c => Nat.eqb (cell_model c) model)
                    (content_widgets (panel w)) with
            | Some cell => map (Disposed model) (_findToolbarWidgets cell)
            | None => []
            end.
Proof.
  intros Hp. unfold _removeToolbar, _getCell. rewrite Hp. simpl.
  destruct (find (fun c => Nat.eqb (cell_model c) model)
              (content_widgets (panel w))) as [cell|] eqn:E.
  - eexists. split; [reflexivity|]. simpl.
    rewrite (find_cell_model _ _ E).
    split; [|split; [|reflexivity]].
    + constructor; simpl; try reflexivity.
      apply update_cell_models. reflexivity.
    + apply (update_cell_found _ _ _ _ E). reflexivity.
  - exists w. split; [reflexivity|].
    split; [constructor; reflexivity|].
    rewrite (update_cell_absent _ _ _ E), app_nil_r. auto.
Qed.

Lemma addToolbar_spec (model : ICellModel) (w : World) :
  _panel (this w) = ref ->
  exists w',
    _addToolbar model w = Ok w'
    /\ same_tracker w w'
    /\ content_widgets (panel w')
       = update_cell model
           (attach_toolbar (new_toolbar model w)
              (positioned_buttons (_commands (this w))))
           (content_widgets (panel w))
    /\ trace w' = trace w ++ additions_for w model.
Proof.
  intros Hp. unfold additions_for. rewrite find_rendered.
  unfold _addToolbar, _getCell. rewrite Hp. simpl.
  destruct (find (fun c => Nat.eqb (cell_model c) model)
              (content_widgets (panel w))) as [cell|] eqn:E.
  - eexists. split; [reflexivity|]. simpl.
    rewrite (find_cell_model _ _ E).
    split; [|split; [|reflexivity]].
    + constructor; simpl; try reflexivity.
      apply update_cell_models. reflexivity.
    + apply (update_cell_found _ _ _ _ E). reflexivity.
  - exists w. split; [reflexivity|].
    split; [constructor; reflexivity|].
    rewrite (update_cell_absent _ _ _ E), app_nil_r. auto.
Qed.

Lemma same_tracker_refl (w : World) : same_tracker w w.
Proof. constructor; reflexivity. Qed.

Lemma same_tracker_trans (w1 w2 w3 : World) :
  same_tracker w1 w2 -> same_tracker w2 w3 -> same_tracker w1 w3.
Proof.
  intros [a1 b1 c1 d1 e1] [a2 b2 c2 d2 e2].
  constructor; congruence.
Qed.

Lemma same_tracker_leftSpace (w w' : World) :
  same_tracker w w' -> current_leftSpace w' = current_leftSpace w.
Proof.
  intros [Ht Hs _ _ _]. unfold current_leftSpace. rewrite Ht, Hs. reflexivity.
Qed.

Lemma same_tracker_new_toolbar (w w' : World) (model : ICellModel) :
  same_tracker w w' -> new_toolbar model w' = new_toolbar model w.
Proof.
  intros H. unfold new_toolbar. rewrite (same_tracker_leftSpace H).
  reflexivity.
Qed.

Lemma same_tracker_rendered (w w' : World) (model : ICellModel) :
  same_tracker w w' -> rendered model w' = rendered model w.
Proof.
  intros [_ _ _ _ Hm]. unfold rendered.
  assert (G : forall cs, existsb (fun c => Nat.eqb (cell_model c) model) cs
                         = existsb (fun m => Nat.eqb m model)
                             (map cell_model cs)).
  { induction cs as [|c rest IH]; simpl; [reflexivity|].
    rewrite IH. reflexivity. }
  rewrite !G, Hm. reflexivity.
Qed.

Lemma same_tracker_additions (w w' : World) (model : ICellModel) :
  same_tracker w w' -> additions_for w' model = additions_for w model.
Proof.
  intros H. unfold additions_for.
  rewrite (same_tracker_rendered model H), (same_tracker_new_toolbar model H).
  destruct H as [Ht _ _ _ _]. rewrite Ht. reflexivity.
Qed.

(** ** Handling a cell-list change *)

Lemma forEach_removeToolbar_spec (models : list ICellModel) (w : World) :
  _panel (this w) = ref ->
  exists w',
    forEach _removeToolbar models w = Ok w'
    /\ same_tracker w w'
    /\ exists removals,
         trace w' = trace w ++ removals
         /\ Forall (is_disposal models) removals.
Proof.
  revert w. induction models as [|model rest IH]; intros w Hp; simpl.
  - exists w. split; [reflexivity|]. split; [apply same_tracker_refl|].
    exists []. rewrite app_nil_r. split; [reflexivity | constructor].
  - destruct (removeToolbar_spec model w Hp) as (w1 & Hrun & Hsame & _ & Htr).
    rewrite Hrun. simpl.
    assert (Hp1 : _panel (this w1) = ref)
      by (destruct Hsame as [Ht _ _ _ _]; rewrite Ht; exact Hp).
    destruct (IH w1 Hp1) as (w' & Hrest & Hsame' & removals & Htr' & Hall).
    exists w'. split; [exact Hrest|].
    split; [exact (same_tracker_trans Hsame Hsame')|].
    eexists. split.
    + rewrite Htr', Htr, <- app_assoc. reflexivity.
    + apply Forall_app. split.
      * destruct (find (fun c => Nat.eqb (cell_model c) model)
                    (content_widgets (panel w))) as [cell|];
          [|constructor].
        apply Forall_forall. intros e He.
        apply in_map_iff in He. destruct He as (x & <- & Hx).
        exists model, x. split; [reflexivity|]. split; [left; reflexivity|].
        unfold _findToolbarWidgets in Hx. apply filter_In in Hx. tauto.
      * eapply Forall_impl; [|exact Hall].
        intros e (m & x & He & Hin & Hc).
        exists m, x. split; [exact He|]. split; [right; exact Hin | exact Hc].
Qed.

Lemma forEach_addToolbar_spec (models : list ICellModel) (w : World) :
  _panel (this w) = ref ->
  exists w',
    forEach _addToolbar models w = Ok w'
    /\ same_tracker w w'
    /\ trace w' = trace w ++ flat_map (additions_for w) models.
Proof.
  revert w. induction models as [|model rest IH]; intros w Hp; simpl.
  - exists w. split; [reflexivity|]. split; [apply same_tracker_refl|].
    rewrite app_nil_r. reflexivity.
  - destruct (addToolbar_spec model w Hp) as (w1 & Hrun & Hsame & _ & Htr).
    rewrite Hrun. simpl.
    assert (Hp1 : _panel (this w1) = ref)
      by (destruct Hsame as [Ht _ _ _ _]; rewrite Ht; exact Hp).
    destruct (IH w1 Hp1) as (w' & Hrest & Hsame' & Htr').
    exists w'. split; [exact Hrest|].
    split; [exact (same_tracker_trans Hsame Hsame')|].
    rewrite Htr', Htr, <- app_assoc. f_equal. f_equal.
    apply flat_map_ext. intros m. apply (same_tracker_additions m Hsame).
Qed.

Lemma updateConnectedCells_Ok (cells : list ICellModel)
  (changed : IChangedArgs ICellModel) (w : World) :
  _panel (this w) = ref ->
  exists w',
    updateConnectedCells cells changed w = Ok w' /\ same_tracker w w'.
Proof.
  intros Hp. unfold updateConnectedCells.
  destruct (forEach_removeToolbar_spec (oldValues changed) w Hp)
    as (w1 & Hrun1 & Hsame1 & _).
  rewrite Hrun1. simpl.
  assert (Hp1 : _panel (this w1) = ref)
    by (destruct Hsame1 as [Ht _ _ _ _]; rewrite Ht; exact Hp).
  destruct (forEach_addToolbar_spec (newValues changed) w1 Hp1)
    as (w' & Hrun2 & Hsame2 & _).
  exists w'. split; [exact Hrun2 | exact (same_tracker_trans Hsame1 Hsame2)].
Qed.

(** ** Every world of a tracker's life is consistent *)

Lemma same_tracker_consistent (w w' : World) :
  same_tracker w w' -> consistent w -> consistent w'.
Proof.
  intros [Ht Hs Hc _ _] [H1 H2 H3 H4].
  constructor; rewrite ?Ht, ?Hs, ?Hc; assumption.
Qed.

Lemma constructor_consistent (widgets : list Cell) (cells : list ICellModel)
  (c : Composite) (commands : CommandRegistry) (settings_arg : reference) :
  exists w0,
    constructor widgets cells c commands settings_arg = Ok w0
    /\ consistent w0
    /\ _isDisposed (this w0) = false
    /\ _settings (this w0) = settings_arg
    /\ cells_changed (panel w0) = true
    /\ settings_changed (settings w0) = truthy settings_arg.
Proof.
  unfold constructor. destruct settings_arg; simpl.
  - eexists. split; [reflexivity|]. simpl.
    repeat split; simpl; auto; discriminate.
  - eexists. split; [reflexivity|]. simpl.
    repeat split; simpl; auto; discriminate.
Qed.

Lemma dispose_consistent (w : World) :
  consistent w ->
  exists w',
    dispose w = Ok w'
    /\ consistent w'
    /\ _isDisposed (this w') = true
    /\ _panel (this w') = null
    /\ cells_changed (panel w') = false
    /\ settings_changed (settings w') = false
    /\ _settings (this w') = _settings (this w)
    /\ _allTags (this w') = _allTags (this w)
    /\ _leftMenuItems (this w') = _leftMenuItems (this w)
    /\ _rightMenuItems (this w') = _rightMenuItems (this w)
    /\ _previousDefaultTags (this w') = _previousDefaultTags (this w)
    /\ content_widgets (panel w') = content_widgets (panel w)
    /\ model_cells (panel w') = model_cells (panel w)
    /\ trace w' = trace w.
Proof.
  intros Hc. unfold dispose, isDisposed.
  destruct (_isDisposed (this w)) eqn:Ed.
  - exists w. split; [reflexivity|].
    split; [exact Hc|].
    split; [exact Ed|]. split; [exact (disposed_has_none Hc Ed)|].
    split.
    { destruct (cells_changed (panel w)) eqn:E; [|reflexivity].
      pose proof (cells_connected_live Hc E). congruence. }
    split.
    { destruct (settings_changed (settings w)) eqn:E; [|reflexivity].
      destruct (settings_connected_live Hc E). congruence. }
    repeat split; reflexivity.
  - destruct Hc as [H1 H2 H3 H4]. rewrite (H1 Ed). eexists. split; [reflexivity|]. simpl.
    split.
    { constructor; simpl; try discriminate; auto.
      destruct (_settings (this w)) eqn:Es; simpl; [|discriminate].
      intros H. destruct (H4 H) as [H' _]. discriminate. }
    repeat split; try reflexivity.
    destruct (_settings (this w)) eqn:Es; simpl; [|reflexivity].
    destruct (settings_changed (settings w)); [|reflexivity].
    destruct (H4 eq_refl) as [H' _]. discriminate.
Qed.

Lemma deliver_consistent (ev : HostEvent) (w : World) :
  consistent w ->
  exists w', deliver ev w = Ok w' /\ consistent w'.
Proof.
  intros Hc. destruct ev as [change | c |]; unfold deliver.
  - assert (Hc1 : consistent (host_update change w))
      by (destruct Hc; constructor; assumption).
    destruct (cells_changed (panel (host_update change w))) eqn:E.
    + pose proof (live_has_panel Hc1 (cells_connected_live Hc1 E)) as Hp.
      destruct (updateConnectedCells_Ok (cells_now change)
                  (changed_args change) _ Hp) as (w' & Hrun & Hsame).
      exists w'. split; [exact Hrun|].
      exact (same_tracker_consistent Hsame Hc1).
    + eexists. split; [reflexivity | exact Hc1].
  - assert (Hc1 : consistent (with_composite c w))
      by (destruct Hc; constructor; assumption).
    cbv zeta.
    destruct (settings_changed (settings (with_composite c w))) eqn:E.
    + destruct (settings_connected_live Hc1 E) as [Hs Hd].
      pose proof (live_has_panel Hc1 Hd) as Hp.
      unfold _onSettingsChanged. rewrite Hs, Hp.
      eexists. split; [reflexivity|].
      simpl in Hs, Hd, Hp.
      constructor; simpl; intros; try split; congruence.
    + eexists. split; [reflexivity | exact Hc1].
  - destruct (dispose_consistent Hc) as (w' & Hrun & Hc' & _).
    exists w'. auto.
Qed.

Lemma run_consistent (evs : list HostEvent) (w : World) :
  consistent w ->
  exists w', run evs w = Ok w' /\ consistent w'.
Proof.
  unfold run. revert w. induction evs as [|ev rest IH]; intros w Hc; simpl.
  - exists w. auto.
  - destruct (deliver_consistent ev Hc) as (w1 & Hrun & Hc1).
    rewrite Hrun. simpl. exact (IH w1 Hc1).
Qed.

Lemma launch_consistent (widgets : list Cell) (cells : list ICellModel)
  (c : Composite) (commands : CommandRegistry) (settings_arg : reference)
  (evs : list HostEvent) :
  exists w,
    launch widgets cells c commands settings_arg evs = Ok w /\ consistent w.
Proof.
  unfold launch.
  destruct (constructor_consistent widgets cells c commands settings_arg)
    as (w0 & Hctor & Hc0 & _).
  rewrite Hctor. simpl. exact (run_consistent evs Hc0).
Qed.

(** ** The settings handler and the settings reference *)

(** C10.  In every life of a tracker (any constructor arguments, any host
    events in any order) no call raises: [_onSettingsChanged], which raises
    on a null settings reference, only runs in the guarded branch of the
    constructor and from the settings signal; that signal is connected only
    when the settings reference is set, and is not connected once the
    tracker is disposed, so another settings change is handled without
    exception too. *)
Theorem onSettingsChanged_never_meets_null
  (widgets : list Cell) (cells : list ICellModel) (c : Composite)
  (commands : CommandRegistry) (settings_arg : reference)
  (evs : list HostEvent) :
  exists w,
    launch widgets cells c commands settings_arg evs = Ok w
    /\ (settings_changed (settings w) = true -> _settings (this w) = ref)
    /\ (_isDisposed (this w) = true -> settings_changed (settings w) = false)
    /\ (forall c', exists w', deliver (SettingsChanged c') w = Ok w')
    /\ (forall w0, _settings (this w0) = null ->
                   _onSettingsChanged w0 = TypeError).
Proof.
  destruct (launch_consistent widgets cells c commands settings_arg evs)
    as (w & Hrun & Hc).
  exists w. split; [exact Hrun|].
  split; [intros H; exact (proj1 (settings_connected_live Hc H))|].
  split.
  { intros Hd. destruct (settings_changed (settings w)) eqn:E; [|reflexivity].
    destruct (settings_connected_live Hc E). congruence. }
  split.
  - intros c'. destruct (deliver_consistent (SettingsChanged c') Hc)
      as (w' & H & _).
    exists w'. exact H.
  - intros w0 H. unfold _onSettingsChanged. rewrite H. reflexivity.
Qed.

(** ** Dispose and the toolbars *)

(** C5, as the spec words it, fails: a tracker that has attached a toolbar
    to cell 1 is disposed; the toolbar is still a child of the cell and no
    widget was disposed. *)
Lemma dispose_leaves_toolbars :
  launch [] [] Sample.schema_defaults Sample.commands ref
    [CellsChanged Sample.cell_1_added] = Ok Sample.with_cell_1
  /\ live_toolbars Sample.with_cell_1 = [1]
  /\ dispose Sample.with_cell_1 = Ok Sample.disposed
  /\ isDisposed Sample.disposed = true
  /\ live_toolbars Sample.disposed = [1]
  /\ trace Sample.disposed = trace Sample.with_cell_1.
Proof.
  repeat split; reflexivity.
Qed.

(** C5, amended.  Disposing a tracker, at any point of its life, returns
    with the tracker disposed, both signals disconnected and the panel
    reference null; the widgets of the cells, the Toolbar Instances among
    them, are left as they were: [dispose] disposes no widget. *)
Theorem dispose_releases_subscriptions_only
  (widgets : list Cell) (cells : list ICellModel) (c : Composite)
  (commands : CommandRegistry) (settings_arg : reference)
  (evs : list HostEvent) :
  exists w w',
    launch widgets cells c commands settings_arg evs = Ok w
    /\ dispose w = Ok w'
    /\ isDisposed w' = true
    /\ cells_changed (panel w') = false
    /\ settings_changed (settings w') = false
    /\ _panel (this w') = null
    /\ content_widgets (panel w') = content_widgets (panel w)
    /\ live_toolbars w' = live_toolbars w
    /\ trace w' = trace w.
Proof.
  destruct (launch_consistent widgets cells c commands settings_arg evs)
    as (w & Hrun & Hc).
  destruct (dispose_consistent Hc)
    as (w' & Hd & _ & H1 & H2 & H3 & H4 & _ & _ & _ & _ & _ & H5 & _ & H6).
  exists w, w'. unfold live_toolbars, isDisposed. rewrite H5.
  repeat split; assumption.
Qed.

(** ** A tracker without settings source *)

Lemma deliver_unconfigured (ev : HostEvent) (w w' : World) :
  consistent w -> unconfigured w -> deliver ev w = Ok w' -> unconfigured w'.
Proof.
  intros Hc Hu Hrun. destruct ev as [change | c |]; unfold deliver in Hrun.
  - assert (Hu1 : unconfigured (host_update change w))
      by (destruct Hu; constructor; assumption).
    assert (Hc1 : consistent (host_update change w))
      by (destruct Hc; constructor; assumption).
    destruct (cells_changed (panel (host_update change w))) eqn:E.
    + pose proof (live_has_panel Hc1 (cells_connected_live Hc1 E)) as Hp.
      destruct (updateConnectedCells_Ok (cells_now change)
                  (changed_args change) _ Hp) as (w2 & Hrun2 & Hsame).
      rewrite Hrun2 in Hrun. injection Hrun as <-.
      destruct Hsame as [Ht Hs _ _ _]. destruct Hu1.
      constructor; rewrite ?Ht, ?Hs; assumption.
    + injection Hrun as <-. exact Hu1.
  - cbv zeta in Hrun.
    assert (Hu1 : unconfigured (with_composite c w))
      by (destruct Hu; constructor; assumption).
    rewrite (no_settings_connection Hu1) in Hrun.
    injection Hrun as <-. exact Hu1.
  - destruct (dispose_consistent Hc)
      as (w2 & Hd & _ & _ & _ & _ & H1 & H2 & H3 & H4 & H5 & H6 & _).
    rewrite Hd in Hrun. injection Hrun as <-. destruct Hu.
    constructor; congruence.
Qed.

Lemma run_unconfigured (evs : list HostEvent) (w : World) :
  consistent w -> unconfigured w ->
  exists w', run evs w = Ok w' /\ unconfigured w'.
Proof.
  unfold run. revert w.
  induction evs as [|ev rest IH]; intros w Hc Hu; simpl.
  - exists w. auto.
  - destruct (deliver_consistent ev Hc) as (w1 & Hrun & Hc1).
    rewrite Hrun. simpl.
    exact (IH w1 Hc1 (deliver_unconfigured ev Hc Hu Hrun)).
Qed.

(** C7, as the spec words it, fails: a tracker constructed with a null
    settings source attaches a toolbar to cell 1, and the left-menu
    collection the toolbar reads is empty, not the built-in default set. *)
Lemma null_settings_left_menu_is_empty :
  exists w,
    launch [] [] Sample.schema_defaults Sample.commands null
      [CellsChanged Sample.cell_1_added] = Ok w
    /\ live_toolbars w = [1]
    /\ toolbar_leftMenu w = []
    /\ toolbar_leftMenu w <> DEFAULT_LEFT_MENU.
Proof.
  eexists. split; [reflexivity|].
  repeat split; try reflexivity. discriminate.
Qed.

(** C7, amended.  A tracker constructed with a null settings source never
    decodes settings: in every world of its life the settings handler is
    not connected and the three collections are as initialised, empty and
    without emission, so its Toolbar Instances read no left-menu item, no
    right-menu item and no default tag, and are built with left space 0. *)
Theorem null_settings_means_empty_collections
  (widgets : list Cell) (cells : list ICellModel) (c : Composite)
  (commands : CommandRegistry) (evs : list HostEvent) :
  exists w,
    launch widgets cells c commands null evs = Ok w
    /\ unconfigured w
    /\ toolbar_leftMenu w = []
    /\ toolbar_rightMenu w = []
    /\ toolbar_tags w = []
    /\ current_leftSpace w = 0%Z.
Proof.
  unfold launch.
  destruct (constructor_consistent widgets cells c commands null)
    as (w0 & Hctor & Hc0 & _).
  rewrite Hctor. simpl.
  assert (Hu0 : unconfigured w0).
  { unfold constructor in Hctor. simpl in Hctor. injection Hctor as <-.
    constructor; reflexivity. }
  destruct (run_unconfigured evs Hc0 Hu0) as (w & Hrun & Hu).
  exists w. split; [exact Hrun|]. split; [exact Hu|].
  unfold toolbar_leftMenu, toolbar_rightMenu, toolbar_tags, current_leftSpace.
  destruct Hu as [Hs _ Ht Hl Hr _]. rewrite Hs, Ht, Hl, Hr.
  repeat split; reflexivity.
Qed.

(** ** The cell of a model after a loop over models *)

Section LoopOverModels.
Variable w0 : World.
Variable step : ICellModel -> World -> outcome World.
Variable F : ICellModel -> Cell -> Cell.
Hypothesis F_keeps_model : forall m c, cell_model (F m c) = cell_model c.
Hypothesis step_spec :
  forall m w,
    same_tracker w0 w -> _panel (this w) = ref ->
    exists w',
      step m w = Ok w' /\ same_tracker w w'
      /\ content_widgets (panel w')
         = update_cell m (F m) (content_widgets (panel w)).

(** Each occurrence of a model in the loop applies [F] once more to the
    cell [_getCell] finds for the model; the other cells stay. *)
Lemma forEach_find (models : list ICellModel) (w : World) :
  same_tracker w0 w -> _panel (this w) = ref ->
  exists w',
    forEach step models w = Ok w'
    /\ forall m,
         find (fun c => Nat.eqb (cell_model c) m)
           (content_widgets (panel w'))
         = option_map (Nat.iter (count_occ Nat.eq_dec models m) (F m))
             (find (fun c => Nat.eqb (cell_model c) m)
                (content_widgets (panel w))).
Proof.
  revert w. induction models as [|m0 rest IH]; intros w Hsame Hp; simpl.
  - exists w. split; [reflexivity|]. intros m.
    destruct (find _ _); reflexivity.
  - destruct (step_spec m0 Hsame Hp) as (w1 & Hrun & Hsame1 & Hcontent).
    rewrite Hrun. simpl.
    assert (Hp1 : _panel (this w1) = ref)
      by (destruct Hsame1 as [Ht _ _ _ _]; rewrite Ht; exact Hp).
    destruct (IH w1 (same_tracker_trans Hsame Hsame1) Hp1)
      as (w' & Hrest & Hfind).
    exists w'. split; [exact Hrest|]. intros m.
    rewrite Hfind, Hcontent.
    destruct (Nat.eq_dec m0 m) as [->|Hne].
    + rewrite (find_update_cell_same (F m) (F_keeps_model m)).
      destruct (find _ _); simpl; [|reflexivity].
      rewrite <- Nat.iter_succ_r. reflexivity.
    + rewrite (find_update_cell_other (F m0) (F_keeps_model m0));
        [reflexivity | congruence].
Qed.
End LoopOverModels.

Lemma strip_toolbars_idempotent (c : Cell) :
  strip_toolbars (strip_toolbars c) = strip_toolbars c.
Proof.
  unfold strip_toolbars, with_layout. simpl. f_equal.
  induction (layout_widgets c) as [|x rest IH]; simpl; [reflexivity|].
  destruct (hasClass CELL_BAR_CLASS x) eqn:E; simpl.
  - exact IH.
  - rewrite E. simpl. f_equal. exact IH.
Qed.

Lemma iter_strip_toolbars (k : nat) (c : Cell) :
  1 <= k -> Nat.iter k strip_toolbars c = strip_toolbars c.
Proof.
  intros Hk. destruct k as [|k]; [lia|]. clear Hk.
  induction k as [|k IH]; [reflexivity|].
  change (strip_toolbars (Nat.iter (S k) strip_toolbars c)
          = strip_toolbars c).
  rewrite IH. apply strip_toolbars_idempotent.
Qed.

Lemma strip_toolbars_none_left (c : Cell) :
  _findToolbarWidgets (strip_toolbars c) = [].
Proof.
  unfold _findToolbarWidgets, strip_toolbars. simpl.
  induction (layout_widgets c) as [|x rest IH]; simpl; [reflexivity|].
  destruct (hasClass CELL_BAR_CLASS x) eqn:E; simpl.
  - exact IH.
  - rewrite E. exact IH.
Qed.

Lemma iter_attach_toolbar (toolbar : Widget) (buttons : list Widget)
  (k : nat) (c : Cell) :
  exists middle,
    layout_widgets (Nat.iter (S k) (attach_toolbar toolbar buttons) c)
    = toolbar :: middle ++ buttons.
Proof.
  change (Nat.iter (S k) (attach_toolbar toolbar buttons) c)
    with (attach_toolbar toolbar buttons
            (Nat.iter k (attach_toolbar toolbar buttons) c)).
  eexists. unfold attach_toolbar at 1. simpl. reflexivity.
Qed.

Lemma count_occ_In_pos (models : list ICellModel) (m : ICellModel) :
  In m models -> 1 <= count_occ Nat.eq_dec models m.
Proof.
  intros H. apply (count_occ_In Nat.eq_dec) in H. lia.
Qed.

Lemma forEach_removeToolbar_find (models : list ICellModel) (w : World) :
  _panel (this w) = ref ->
  exists w',
    forEach _removeToolbar models w = Ok w'
    /\ forall m,
         find (fun c => Nat.eqb (cell_model c) m) (content_widgets (panel w'))
         = option_map
             (Nat.iter (count_occ Nat.eq_dec models m) strip_toolbars)
             (find (fun c => Nat.eqb (cell_model c) m)
                (content_widgets (panel w))).
Proof.
  intros Hp.
  apply (@forEach_find w _removeToolbar (fun _ => strip_toolbars)).
  - reflexivity.
  - intros m w1 _ Hp1.
    destruct (removeToolbar_spec m w1 Hp1) as (w' & H1 & H2 & H3 & _).
    exists w'. auto.
  - apply same_tracker_refl.
  - exact Hp.
Qed.

Lemma forEach_addToolbar_find (models : list ICellModel) (w : World) :
  _panel (this w) = ref ->
  exists w',
    forEach _addToolbar models w = Ok w'
    /\ forall m,
         find (fun c => Nat.eqb (cell_model c) m) (content_widgets (panel w'))
         = option_map
             (Nat.iter (count_occ Nat.eq_dec models m)
                (attach_toolbar (new_toolbar m w)
                   (positioned_buttons (_commands (this w)))))
             (find (fun c => Nat.eqb (cell_model c) m)
                (content_widgets (panel w))).
Proof.
  intros Hp.
  apply (@forEach_find w _addToolbar
           (fun m => attach_toolbar (new_toolbar m w)
                       (positioned_buttons (_commands (this w))))).
  - reflexivity.
  - intros m w1 Hsame Hp1.
    destruct (addToolbar_spec m w1 Hp1) as (w' & H1 & H2 & H3 & _).
    exists w'. split; [exact H1|]. split; [exact H2|].
    rewrite H3, (same_tracker_new_toolbar m Hsame).
    destruct Hsame as [Ht _ _ _ _]. rewrite Ht. reflexivity.
  - apply same_tracker_refl.
  - exact Hp.
Qed.

(** ** Removed models first, added models next *)

(** C9.  [updateConnectedCells] runs [_removeToolbar] on every removed
    model, then [_addToolbar] on every added model.  The operations on the
    widget tree are first disposals of children that carry the toolbar
    class, for removed models only; after them the cell of a removed model
    is the cell it was without its children of the toolbar class.  Then,
    for each added model that is rendered, come the insertion at index 0 of
    a new toolbar, bound to the model and carrying the toolbar class, and
    the addition of the positioned buttons: one button per entry of
    [POSITIONED_BUTTONS] whose command is registered, in the order of the
    entries, each executing the command of its entry and carrying the
    toolbar class.  After them the cell of a model added once is the cell
    left by the removals with the toolbar in front of its children and the
    buttons behind them. *)
Theorem updateConnectedCells_removes_then_adds
  (cells : list ICellModel) (changed : IChangedArgs ICellModel) (w : World) :
  _panel (this w) = ref ->
  exists w1 w',
    forEach _removeToolbar (oldValues changed) w = Ok w1
    /\ forEach _addToolbar (newValues changed) w1 = Ok w'
    /\ updateConnectedCells cells changed w = Ok w'
    /\ (exists removals,
          Forall (is_disposal (oldValues changed)) removals
          /\ trace w1 = trace w ++ removals
          /\ trace w'
             = trace w ++ removals
               ++ flat_map (additions_for w) (newValues changed))
    /\ (forall m cell,
          In m (oldValues changed) -> _getCell m w = Ok (Some cell) ->
          _getCell m w1 = Ok (Some (strip_toolbars cell)))
    /\ (forall m cell,
          In m (oldValues changed) -> _getCell m w1 = Ok (Some cell) ->
          _findToolbarWidgets cell = [])
    /\ (forall m cell,
          _getCell m w1 = Ok (Some cell) ->
          _getCell m w'
          = Ok (Some (Nat.iter (count_occ Nat.eq_dec (newValues changed) m)
                        (attach_toolbar (new_toolbar m w)
                           (positioned_buttons (_commands (this w))))
                        cell)))
    /\ (forall m cell,
          count_occ Nat.eq_dec (newValues changed) m = 1 ->
          _getCell m w1 = Ok (Some cell) ->
          exists cell',
            _getCell m w' = Ok (Some cell')
            /\ layout_widgets cell'
               = (new_toolbar m w :: layout_widgets cell)
                 ++ positioned_buttons (_commands (this w)))
    /\ (forall m cell,
          In m (newValues changed) -> _getCell m w' = Ok (Some cell) ->
          exists middle,
            layout_widgets cell
            = new_toolbar m w :: middle
              ++ positioned_buttons (_commands (this w)))
    /\ (forall m,
          kind (new_toolbar m w) = CellToolbarWidget m (current_leftSpace w)
          /\ hasClass CELL_BAR_CLASS (new_toolbar m w) = true)
    /\ map executed_command (positioned_buttons (_commands (this w)))
       = map Some
           (filter (hasCommand (_commands (this w)))
              (map command POSITIONED_BUTTONS))
    /\ Forall (fun b => hasClass CELL_BAR_CLASS b = true)
         (positioned_buttons (_commands (this w))).
Proof.
  intros Hp.
  destruct (forEach_removeToolbar_spec (oldValues changed) w Hp)
    as (w1 & Hrun1 & Hsame1 & removals & Htr1 & Hall).
  destruct (forEach_removeToolbar_find (oldValues changed) w Hp)
    as (w1' & Hrun1' & Hfind1).
  rewrite Hrun1 in Hrun1'. injection Hrun1' as <-.
  assert (Hp1 : _panel (this w1) = ref)
    by (destruct Hsame1 as [Ht _ _ _ _]; rewrite Ht; exact Hp).
  destruct (forEach_addToolbar_spec (newValues changed) w1 Hp1)
    as (w' & Hrun2 & Hsame2 & Htr2).
  destruct (forEach_addToolbar_find (newValues changed) w1 Hp1)
    as (w2' & Hrun2' & Hfind2).
  rewrite Hrun2 in Hrun2'. injection Hrun2' as <-.
  assert (Hp' : _panel (this w') = ref)
    by (destruct Hsame2 as [Ht _ _ _ _]; rewrite Ht; exact Hp1).
  assert (Hadded :
            forall m cell,
              _getCell m w1 = Ok (Some cell) ->
              _getCell m w'
              = Ok (Some (Nat.iter
                            (count_occ Nat.eq_dec (newValues changed) m)
                            (attach_toolbar (new_toolbar m w)
                               (positioned_buttons (_commands (this w))))
                            cell))).
  { intros m cell Hget. unfold _getCell in *. rewrite Hp1 in Hget.
    rewrite Hp', Hfind2. injection Hget as ->. simpl.
    rewrite (same_tracker_new_toolbar m Hsame1).
    destruct Hsame1 as [Ht _ _ _ _]. rewrite Ht. reflexivity. }
  exists w1, w'. split; [exact Hrun1|]. split; [exact Hrun2|].
  split; [unfold updateConnectedCells; rewrite Hrun1; exact Hrun2|].
  split.
  { exists removals. split; [exact Hall|]. split; [exact Htr1|].
    rewrite Htr2, Htr1, <- app_assoc. f_equal. f_equal.
    apply flat_map_ext. intros m. apply (same_tracker_additions m Hsame1). }
  split.
  { intros m cell Hin Hget. unfold _getCell in *. rewrite Hp in Hget.
    rewrite Hp1, Hfind1. injection Hget as ->. simpl.
    rewrite (iter_strip_toolbars _ (count_occ_In_pos _ _ Hin)).
    reflexivity. }
  split.
  { intros m cell Hin Hget. unfold _getCell in Hget. rewrite Hp1 in Hget.
    injection Hget as Hget. rewrite Hfind1 in Hget.
    destruct (find _ (content_widgets (panel w))) as [c|];
      [|discriminate].
    simpl in Hget. injection Hget as <-.
    rewrite (iter_strip_toolbars _ (count_occ_In_pos _ _ Hin)).
    apply strip_toolbars_none_left. }
  split; [exact Hadded|].
  split.
  { intros m cell Hone Hget. eexists. split; [exact (Hadded m cell Hget)|].
    rewrite Hone. reflexivity. }
  split.
  { intros m cell Hin Hget. unfold _getCell in Hget. rewrite Hp' in Hget.
    injection Hget as Hget. rewrite Hfind2 in Hget.
    destruct (find _ (content_widgets (panel w1))) as [c|];
      [|discriminate].
    simpl in Hget. injection Hget as <-.
    pose proof (count_occ_In_pos _ _ Hin) as Hk.
    destruct (count_occ Nat.eq_dec (newValues changed) m) as [|k]; [lia|].
    rewrite (same_tracker_new_toolbar m Hsame1).
    destruct Hsame1 as [Ht _ _ _ _]. rewrite Ht.
    apply iter_attach_toolbar. }
  split; [intros m; split; reflexivity|].
  split.
  - unfold positioned_buttons.
    generalize POSITIONED_BUTTONS as entries.
    induction entries as [|e rest IH]; [reflexivity|].
    cbn [filter map].
    destruct (hasCommand (_commands (this w)) (command e)); [|exact IH].
    cbn [map]. f_equal. exact IH.
  - unfold positioned_buttons. apply Forall_map, Forall_forall.
    intros e _. reflexivity.
Qed.

(** Cell 1, which carries a toolbar and the buttons of the two registered
    positioned commands, is moved: the three are disposed, then a new
    toolbar is inserted and the two buttons are added again. *)
Lemma updateConnectedCells_removes_then_adds_witness :
  exists w',
    updateConnectedCells [1] Sample.moved_1 Sample.with_cell_1 = Ok w'
    /\ live_toolbars w' = [1]
    /\ content_widgets (panel w')
       = [ {| cell_model := 1;
              layout_widgets :=
                [ Sample.toolbar_1;
                  Sample.content "header"; Sample.content "inputWrapper";
                  Sample.run_button; Sample.up_button ] |} ]
    /\ trace w'
       = trace Sample.with_cell_1
         ++ [ Disposed 1 Sample.toolbar_1;
              Disposed 1 Sample.run_button;
              Disposed 1 Sample.up_button;
              Inserted 1 0 Sample.toolbar_1;
              Added 1 Sample.run_button;
              Added 1 Sample.up_button ].
Proof.
  destruct (updateConnectedCells_removes_then_adds
              [1] Sample.moved_1 Sample.with_cell_1 eq_refl)
    as (w1 & w' & _ & _ & Hrun & _).
  exists w'. split; [exact Hrun|].
  vm_compute in Hrun. injection Hrun as <-. repeat split; reflexivity.
Defined.

(** ** The Toolbar Instances of a cell *)

Lemma bound_models_app (xs ys : list Widget) :
  bound_models (xs ++ ys) = bound_models xs ++ bound_models ys.
Proof. apply flat_map_app. Qed.

Lemma bound_models_none (ws : list Widget) :
  (forall x, In x ws -> is_toolbar x = false) -> bound_models ws = [].
Proof.
  induction ws as [|x rest IH]; intros H; simpl; [reflexivity|].
  rewrite IH by (intros y Hy; apply H; right; exact Hy).
  specialize (H x (or_introl eq_refl)). unfold is_toolbar in H.
  destruct (kind x); [discriminate | reflexivity | reflexivity].
Qed.

Lemma bound_models_nil_inv (ws : list Widget) (x : Widget) :
  bound_models ws = [] -> In x ws -> is_toolbar x = false.
Proof.
  induction ws as [|y rest IH]; simpl; intros H Hin; [contradiction|].
  apply app_eq_nil in H. destruct H as [Hy Hrest].
  destruct Hin as [->|Hin]; [|exact (IH Hrest Hin)].
  unfold is_toolbar. destruct (kind x); [discriminate | reflexivity..].
Qed.

Lemma bound_models_positioned_buttons (commands : CommandRegistry) :
  bound_models (positioned_buttons commands) = [].
Proof.
  apply bound_models_none. intros x Hx. unfold positioned_buttons in Hx.
  apply in_map_iff in Hx. destruct Hx as (entry & <- & _). reflexivity.
Qed.

Lemma bound_models_stripped (ws : list Widget) :
  toolbars_classed ws ->
  bound_models (filter (fun x => negb (hasClass CELL_BAR_CLASS x)) ws) = [].
Proof.
  intros Hc. apply bound_models_none. intros x Hx.
  apply filter_In in Hx. destruct Hx as [Hin Hcls].
  destruct (is_toolbar x) eqn:E; [|reflexivity].
  rewrite (Hc x Hin E) in Hcls. discriminate.
Qed.

Lemma toolbars_classed_no_toolbar (ws : list Widget) :
  bound_models ws = [] -> toolbars_classed ws.
Proof.
  intros H x Hin Ht. rewrite (bound_models_nil_inv _ _ H Hin) in Ht.
  discriminate.
Qed.

(** A cell without Toolbar Instance, once a toolbar is attached. *)
Lemma attach_toolbar_own (c : Cell) (w : World) :
  bound_models (layout_widgets c) = [] ->
  has_own_toolbar
    (attach_toolbar (new_toolbar (cell_model c) w)
       (positioned_buttons (_commands (this w))) c).
Proof.
  intros Hnone. split.
  - simpl. rewrite bound_models_app, Hnone, bound_models_positioned_buttons.
    reflexivity.
  - intros x Hin Ht. simpl in Hin. destruct Hin as [<-|Hin]; [reflexivity|].
    apply in_app_or in Hin. destruct Hin as [Hin|Hin].
    + rewrite (bound_models_nil_inv _ _ Hnone Hin) in Ht. discriminate.
    + rewrite (bound_models_nil_inv _ _
                 (bound_models_positioned_buttons _) Hin) in Ht.
      discriminate.
Qed.

Lemma find_NoDup (cs : list Cell) (c : Cell) :
  NoDup (map cell_model cs) -> In c cs ->
  find (fun x => Nat.eqb (cell_model x) (cell_model c)) cs = Some c.
Proof.
  induction cs as [|d rest IH]; simpl; intros Hnd Hin; [contradiction|].
  inversion Hnd as [|? ? Hnotin Hrest]; subst.
  destruct Hin as [->|Hin].
  - rewrite Nat.eqb_refl. reflexivity.
  - destruct (Nat.eqb_spec (cell_model d) (cell_model c)) as [E|E].
    + exfalso. apply Hnotin. rewrite E. apply in_map. exact Hin.
    + exact (IH Hrest Hin).
Qed.

Lemma iter_keeps_model (f : Cell -> Cell) (k : nat) (c : Cell) :
  (forall x, cell_model (f x) = cell_model x) ->
  cell_model (Nat.iter k f c) = cell_model c.
Proof.
  intros Hf. induction k as [|k IH]; simpl; [reflexivity|].
  rewrite Hf. exact IH.
Qed.

Lemma in_correspondence_live (w : World) :
  in_correspondence w -> live_toolbars w = live_cells w.
Proof.
  intros [Hr _ Hall]. unfold live_toolbars, live_cells. rewrite <- Hr.
  clear Hr.
  induction (content_widgets (panel w)) as [|c rest IH]; simpl;
    [reflexivity|].
  inversion Hall as [|? ? [Hc _] Hrest]; subst.
  rewrite Hc, (IH Hrest). reflexivity.
Qed.

Lemma in_correspondence_one_toolbar_per_cell (w : World) :
  in_correspondence w -> one_toolbar_per_cell w.
Proof.
  intros H. split.
  - exact (cells_distinct H).
  - rewrite (in_correspondence_live H). apply Permutation_refl.
Qed.

(** ** One toolbar per cell while the host is in step *)

Lemma handle_change_in_correspondence (change : CellsChange) (w : World) :
  _panel (this w) = ref ->
  in_correspondence w ->
  host_in_step (content_widgets (panel w)) change ->
  exists w',
    handle_change change w = Ok w'
    /\ _panel (this w') = ref
    /\ in_correspondence w'.
Proof.
  intros Hp Hin Hstep.
  set (old := oldValues (changed_args change)).
  set (new := newValues (changed_args change)).
  unfold handle_change, updateConnectedCells.
  set (wh := host_update change w).
  assert (Hph : _panel (this wh) = ref) by exact Hp.
  destruct (forEach_removeToolbar_spec old wh Hph)
    as (w1 & Hrun1 & Hsame1 & _).
  destruct (forEach_removeToolbar_find old wh Hph)
    as (w1' & Hrun1' & Hfind1).
  rewrite Hrun1 in Hrun1'. injection Hrun1' as <-.
  assert (Hp1 : _panel (this w1) = ref)
    by (destruct Hsame1 as [Ht _ _ _ _]; rewrite Ht; exact Hph).
  destruct (forEach_addToolbar_spec new w1 Hp1)
    as (w' & Hrun2 & Hsame2 & _).
  destruct (forEach_addToolbar_find new w1 Hp1)
    as (w2' & Hrun2' & Hfind2).
  rewrite Hrun2 in Hrun2'. injection Hrun2' as <-.
  fold old new. rewrite Hrun1. simpl.
  exists w'. split; [exact Hrun2|].
  pose proof (same_tracker_trans Hsame1 Hsame2) as Hsame.
  split; [destruct Hsame as [Ht _ _ _ _]; rewrite Ht; exact Hph|].
  assert (Hmodels : map cell_model (content_widgets (panel w'))
                    = cells_now change).
  { rewrite (same_models Hsame). exact (step_renders Hstep). }
  constructor.
  - rewrite (same_cells Hsame). exact Hmodels.
  - rewrite (same_cells Hsame). exact (step_distinct Hstep).
  - apply Forall_forall. intros c' Hc'.
    assert (Hnd : NoDup (map cell_model (content_widgets (panel w'))))
      by (rewrite Hmodels; exact (step_distinct Hstep)).
    pose proof (find_NoDup _ _ Hnd Hc') as Hf.
    remember (cell_model c') as m eqn:Em.
    rewrite Hfind2, Hfind1 in Hf.
    change (content_widgets (panel wh)) with (widgets_now change) in Hf.
    destruct (find (fun c => Nat.eqb (cell_model c) m) (widgets_now change))
      as [c|] eqn:Ec; [|discriminate].
    simpl in Hf. injection Hf as Hf.
    pose proof (find_cell_model _ _ Ec) as Hm.
    apply find_some in Ec. destruct Ec as [Hc _].
    pose proof (step_widgets Hstep) as Hw.
    rewrite Forall_forall in Hw. specialize (Hw c Hc). rewrite Hm in Hw.
    fold old new in Hw.
    assert (Hcell : In m (cells_now change)).
    { rewrite <- (step_renders Hstep), <- Hm. apply in_map. exact Hc. }
    pose proof (step_removed_gone Hstep m) as Hgone. fold old new in Hgone.
    pose proof (proj1 (NoDup_count_occ Nat.eq_dec new)
                  (step_added_distinct Hstep) m) as Hle.
    assert (Hstripped :
              forall k, cell_model (Nat.iter k strip_toolbars c) = m).
    { intros k. rewrite iter_keeps_model by reflexivity. exact Hm. }
    destruct (count_occ Nat.eq_dec new m) as [|[|k2]] eqn:Ek2; [| |lia].
    + (* the model is not added: the cell is carried over, untouched *)
      assert (Hnot : ~ In m new)
        by (apply (count_occ_not_In Nat.eq_dec); exact Ek2).
      destruct Hw as [[Hbefore _] | [Hadded _]]; [|contradiction].
      destruct (count_occ Nat.eq_dec old m) as [|k1] eqn:Ek1.
      * simpl in Hf. subst c'.
        pose proof (each_has_toolbar Hin) as Hall.
        rewrite Forall_forall in Hall. exact (Hall c Hbefore).
      * exfalso. apply Hnot, Hgone; [|exact Hcell].
        apply (count_occ_In Nat.eq_dec). lia.
    + (* the model is added: a toolbar is attached to a cell without one *)
      simpl in Hf. rewrite <- Hf.
      set (c0 := Nat.iter (count_occ Nat.eq_dec old m) strip_toolbars c).
      assert (Hc0 : cell_model c0 = m) by apply Hstripped.
      rewrite <- Hc0. apply attach_toolbar_own. subst c0.
      assert (Hclassed : toolbars_classed (layout_widgets c)
                         /\ (1 <= count_occ Nat.eq_dec old m
                             \/ bound_models (layout_widgets c) = [])).
      { destruct Hw as [[Hbefore Hold] | [_ Hnone]].
        - pose proof (each_has_toolbar Hin) as Hall.
          rewrite Forall_forall in Hall.
          destruct (Hall c Hbefore) as [_ Hcl]. split; [exact Hcl|].
          left. apply count_occ_In_pos, Hold.
          apply (count_occ_In Nat.eq_dec). lia.
        - split; [apply toolbars_classed_no_toolbar; exact Hnone|].
          right. exact Hnone. }
      destruct Hclassed as [Hcl Hcase].
      destruct (count_occ Nat.eq_dec old m) as [|k1] eqn:Ek1.
      * simpl. destruct Hcase as [Hk|Hnone]; [lia | exact Hnone].
      * rewrite iter_strip_toolbars by lia.
        apply bound_models_stripped. exact Hcl.
Qed.

Lemma handle_changes_in_correspondence (changes : list CellsChange)
  (w : World) :
  _panel (this w) = ref ->
  in_correspondence w ->
  all_in_step changes w ->
  exists w',
    handle_changes changes w = Ok w'
    /\ _panel (this w') = ref
    /\ in_correspondence w'.
Proof.
  unfold handle_changes. revert w.
  induction changes as [|change rest IH]; intros w Hp Hin Hall; simpl.
  - exists w. auto.
  - destruct Hall as [Hstep Hrest].
    destruct (handle_change_in_correspondence Hp Hin Hstep)
      as (w1 & Hrun & Hp1 & Hin1).
    rewrite Hrun. simpl. exact (IH w1 Hp1 Hin1 (Hrest w1 Hrun)).
Qed.

Lemma all_in_step_firstn (k : nat) (changes : list CellsChange) (w : World) :
  all_in_step changes w -> all_in_step (firstn k changes) w.
Proof.
  revert changes w. induction k as [|k IH]; intros changes w H; simpl.
  - exact I.
  - destruct changes as [|change rest]; simpl; [exact I|].
    destruct H as [Hstep Hrest]. split; [exact Hstep|].
    intros w' Hrun. exact (IH rest w' (Hrest w' Hrun)).
Qed.

(** C1, as the spec words it, fails.  On a notebook in correspondence a
    change adds cell 1 before the notebook has rendered it: the cell is
    live and has no toolbar.  And when the change that added cell 1
    reaches the tracker a second time, cell 1 has two toolbars. *)
Lemma toolbars_not_always_one_per_cell :
  constructor [] [] Sample.schema_defaults Sample.commands ref
  = Ok Sample.configured
  /\ one_toolbar_per_cell Sample.configured
  /\ (exists w',
        handle_change Sample.cell_1_unrendered Sample.configured = Ok w'
        /\ live_cells w' = [1]
        /\ live_toolbars w' = []
        /\ ~ one_toolbar_per_cell w')
  /\ (exists w',
        handle_changes [Sample.cell_1_added; Sample.cell_1_added_again]
          Sample.configured = Ok w'
        /\ live_cells w' = [1]
        /\ live_toolbars w' = [1; 1]
        /\ ~ one_toolbar_per_cell w').
Proof.
  split; [reflexivity|]. split; [|split].
  - split; [constructor | apply Permutation_refl].
  - eexists. split; [reflexivity|]. split; [reflexivity|].
    split; [reflexivity|].
    intros [_ H]. apply Permutation_length in H. discriminate.
  - eexists. split; [reflexivity|]. split; [reflexivity|].
    split; [reflexivity|].
    intros [_ H]. apply Permutation_length in H. discriminate.
Qed.

(** C1, amended.  For every sequence of cell-list changes handled by
    [updateConnectedCells] while the host is in step at each of them,
    starting from a notebook in correspondence, after each change the live
    Toolbar Instances are in one-to-one correspondence with the live cells:
    each rendered cell holds exactly one toolbar, bound to its model, and
    the models the toolbars are bound to are exactly the cell list. *)
Theorem one_toolbar_per_cell_while_in_step
  (changes : list CellsChange) (w : World) :
  _panel (this w) = ref ->
  in_correspondence w ->
  all_in_step changes w ->
  forall k : nat,
    exists w',
      handle_changes (firstn k changes) w = Ok w'
      /\ in_correspondence w'
      /\ live_toolbars w' = live_cells w'
      /\ one_toolbar_per_cell w'.
Proof.
  intros Hp Hin Hall k.
  destruct (handle_changes_in_correspondence (firstn k changes) Hp Hin
              (all_in_step_firstn k changes w Hall))
    as (w' & Hrun & _ & Hin').
  exists w'. split; [exact Hrun|]. split; [exact Hin'|].
  split; [exact (in_correspondence_live Hin')|].
  exact (in_correspondence_one_toolbar_per_cell Hin').
Qed.

(** Cell 1, then cell 2, are added to an empty notebook and rendered: after
    each of the two changes every cell has its one toolbar. *)
Lemma one_toolbar_per_cell_while_in_step_witness :
  exists w',
    handle_changes
      (firstn 2 [Sample.cell_1_added; Sample.cell_2_added])
      Sample.configured = Ok w'
    /\ in_correspondence w'
    /\ live_toolbars w' = live_cells w'
    /\ one_toolbar_per_cell w'.
Proof.
  apply (@one_toolbar_per_cell_while_in_step
           [Sample.cell_1_added; Sample.cell_2_added] Sample.configured).
  - reflexivity.
  - constructor; [reflexivity | constructor | constructor].
  - split.
    + constructor.
      * reflexivity.
      * repeat constructor. intros [].
      * repeat constructor. intros [].
      * intros m [].
      * constructor; [|constructor].
        right. split; [left; reflexivity | reflexivity].
    + intros w' Hrun.
      assert (E : handle_change Sample.cell_1_added Sample.configured
                  = Ok Sample.with_cell_1) by reflexivity.
      rewrite E in Hrun. injection Hrun as <-.
      split; [|intros w'' _; exact I].
      constructor.
      * reflexivity.
      * repeat constructor; [intros [H|[]]; discriminate | intros []].
      * repeat constructor. intros [].
      * intros m [].
      * constructor; [|constructor; [|constructor]].
        -- left. split; [left; reflexivity|].
           intros [H|[]]. discriminate.
        -- right. split; [left; reflexivity | reflexivity].
Defined.

(** ** Further properties: the menus on a settings change *)

Lemma replace_left_emitted (c : Composite)
  (items : ObservableList.t ICellMenuItem) :
  emitted_since items (next_leftMenuItems c items)
    (replace_events (ObservableList.values items) (wanted_leftMenu c)).
Proof.
  unfold emitted_since, next_leftMenuItems, wanted_leftMenu, replace_events,
    ObservableList.length.
  destruct items as [vs em]. cbn [ObservableList.values].
  destruct vs as [|v vs]; destruct (leftMenu c) as [[|x l]|]; cbn;
    rewrite <- ?app_assoc, ?app_nil_r; reflexivity.
Qed.

Lemma replace_right_emitted (c : Composite)
  (items : ObservableList.t ICellMenuItem) :
  emitted_since items (next_rightMenuItems c items)
    (replace_events (ObservableList.values items)
       (or_array (rightMenu c) [])).
Proof.
  unfold emitted_since, next_rightMenuItems, replace_events,
    ObservableList.length.
  destruct items as [vs em]. cbn [ObservableList.values].
  destruct vs as [|v vs]; destruct (rightMenu c) as [[|x l]|]; cbn;
    rewrite <- ?app_assoc, ?app_nil_r; reflexivity.
Qed.

(** X1.  A settings change replaces the content of both menu collections,
    whatever they held: the left one holds the settings' list, or the
    default menu when the list is null; the right one holds the settings'
    list, or nothing when it is null.  Each collection emits one 'remove'
    of its old content only when it held something, then one 'add' only
    when there is something to add: an empty collection that stays empty
    emits nothing. *)
Theorem menus_are_replaced_without_useless_emission (w : World) :
  _settings (this w) = ref ->
  _panel (this w) = ref ->
  exists w',
    _onSettingsChanged w = Ok w'
    /\ toolbar_leftMenu w' = wanted_leftMenu (composite (settings w))
    /\ toolbar_rightMenu w' = or_array (rightMenu (composite (settings w))) []
    /\ emitted_since (_leftMenuItems (this w)) (_leftMenuItems (this w'))
         (replace_events (toolbar_leftMenu w)
            (wanted_leftMenu (composite (settings w))))
    /\ emitted_since (_rightMenuItems (this w)) (_rightMenuItems (this w'))
         (replace_events (toolbar_rightMenu w)
            (or_array (rightMenu (composite (settings w))) [])).
Proof.
  intros Hs Hp.
  destruct (onSettingsChanged_Ok w Hs Hp)
    as (w' & Hrun & Hleft & Hright & _).
  exists w'. split; [exact Hrun|].
  unfold toolbar_leftMenu, toolbar_rightMenu. rewrite Hleft, Hright.
  split; [apply next_leftMenuItems_values|].
  split; [apply next_rightMenuItems_values|].
  split; [apply replace_left_emitted | apply replace_right_emitted].
Qed.

(** A tracker without menu item is told that both menus are empty: neither
    collection emits. *)
Lemma menus_are_replaced_without_useless_emission_witness :
  exists w',
    _onSettingsChanged
      (with_composite
         {| defaultTags := None; leftMenu := Some [];
            rightMenu := None; leftSpace := None |} Sample.store) = Ok w'
    /\ emitted_since (_leftMenuItems (this Sample.store))
         (_leftMenuItems (this w')) []
    /\ emitted_since (_rightMenuItems (this Sample.store))
         (_rightMenuItems (this w')) [].
Proof.
  destruct (menus_are_replaced_without_useless_emission
              (with_composite
                 {| defaultTags := None; leftMenu := Some [];
                    rightMenu := None; leftSpace := None |} Sample.store)
              eq_refl eq_refl)
    as (w' & Hrun & _ & _ & Hl & Hr).
  exists w'. split; [exact Hrun|]. split; [exact Hl | exact Hr].
Defined.

(** ** Further properties: decoding the same settings again *)

Lemma filter_none {A : Type} (p : A -> bool) (l : list A) :
  (forall x, In x l -> p x = false) -> filter p l = [].
Proof.
  induction l as [|x rest IH]; intros H; simpl; [reflexivity|].
  rewrite (H x (or_introl eq_refl)). apply IH.
  intros y Hy. apply H. right. exact Hy.
Qed.

Lemma tags_toAdd_same (tags : list string) : tags_toAdd tags tags = [].
Proof.
  apply filter_none. intros x Hx.
  rewrite (proj2 (includes_In tags x) Hx). reflexivity.
Qed.

Lemma tags_toRemove_same (tags : list string) : tags_toRemove tags tags = [].
Proof.
  apply filter_none. intros x Hx.
  rewrite (proj2 (includes_In tags x) Hx). reflexivity.
Qed.

Lemma set_spacer_twice (z z' : Z) (x : Widget) :
  set_spacer z' (set_spacer z x) = set_spacer z' x.
Proof.
  unfold set_spacer. destruct x as [k cl]. destruct k; reflexivity.
Qed.

Lemma set_spacers_twice (z z' : Z) (cs : list Cell) :
  set_spacers z' (set_spacers z cs) = set_spacers z' cs.
Proof.
  unfold set_spacers. rewrite map_map. apply map_ext. intros c.
  unfold with_layout. simpl. f_equal.
  rewrite map_map. apply map_ext. intros x. apply set_spacer_twice.
Qed.

(** X2.  When the settings handler runs a second time on the same
    composite, the default tags are those it recorded, so the tag
    collection is left alone, with no emission; both menus hold what they
    held, and the widgets of the cells stay as they are. *)
Theorem decoding_again_leaves_tags_alone (w : World) :
  _settings (this w) = ref ->
  _panel (this w) = ref ->
  exists w1 w2,
    _onSettingsChanged w = Ok w1
    /\ _onSettingsChanged w1 = Ok w2
    /\ _allTags (this w2) = _allTags (this w1)
    /\ _previousDefaultTags (this w2) = _previousDefaultTags (this w1)
    /\ toolbar_leftMenu w2 = toolbar_leftMenu w1
    /\ toolbar_rightMenu w2 = toolbar_rightMenu w1
    /\ content_widgets (panel w2) = content_widgets (panel w1)
    /\ trace w2 = trace w1.
Proof.
  intros Hs Hp. unfold _onSettingsChanged at 1. rewrite Hs, Hp.
  eexists. eexists. split; [reflexivity|].
  unfold _onSettingsChanged. cbn [this _settings _panel settings].
  split; [reflexivity|]. cbn [this panel settings trace _allTags
    _previousDefaultTags content_widgets with_content_widgets].
  unfold toolbar_leftMenu, toolbar_rightMenu.
  cbn [this _leftMenuItems _rightMenuItems].
  rewrite !next_leftMenuItems_values, !next_rightMenuItems_values.
  rewrite set_spacers_twice.
  unfold next_allTags at 1.
  rewrite tags_toAdd_same, tags_toRemove_same. simpl.
  repeat split; reflexivity.
Qed.

Lemma decoding_again_leaves_tags_alone_witness :
  exists w1 w2,
    _onSettingsChanged Sample.store = Ok w1
    /\ _onSettingsChanged w1 = Ok w2
    /\ _allTags (this w2) = _allTags (this w1)
    /\ _previousDefaultTags (this w2) = _previousDefaultTags (this w1)
    /\ toolbar_leftMenu w2 = toolbar_leftMenu w1
    /\ toolbar_rightMenu w2 = toolbar_rightMenu w1
    /\ content_widgets (panel w2) = content_widgets (panel w1)
    /\ trace w2 = trace w1.
Proof.
  apply (decoding_again_leaves_tags_alone Sample.store); reflexivity.
Defined.

(** ** Further properties: the tag collection holds the default tags *)

Lemma count_occ_filter (p : string -> bool) (l : list string) (x : string) :
  count_occ string_dec (filter p l) x
  = if p x then count_occ string_dec l x else 0.
Proof.
  induction l as [|y rest IH]; simpl.
  - destruct (p x); reflexivity.
  - destruct (p y) eqn:Ey; simpl.
    + destruct (string_dec y x) as [->|Hne].
      * rewrite IH, Ey. reflexivity.
      * exact IH.
    + destruct (string_dec y x) as [->|Hne].
      * rewrite IH, Ey. reflexivity.
      * exact IH.
Qed.

Lemma remove_each_count_removed (tags : list string) (tag : string)
  (xs : list string) :
  NoDup tags -> In tag tags ->
  count_occ string_dec (remove_each tags xs) tag
  = pred (count_occ string_dec xs tag).
Proof.
  unfold remove_each. revert xs.
  induction tags as [|v rest IH]; intros xs Hnd Hin; [contradiction|].
  inversion Hnd as [|? ? Hnotin Hrest]; subst. simpl.
  destruct Hin as [->|Hin].
  - fold (remove_each rest
            (ObservableList.removeFirst String.eqb tag xs)).
    rewrite (remove_each_count_other _ _ _ Hnotin).
    apply removeFirst_count_same.
  - rewrite (IH _ Hrest Hin). f_equal.
    apply removeFirst_count_other. intros ->. contradiction.
Qed.

Lemma NoDup_count_le (l : list string) (x : string) :
  NoDup l -> count_occ string_dec l x = if includes l x then 1 else 0.
Proof.
  intros Hnd.
  pose proof (proj1 (NoDup_count_occ string_dec l) Hnd x) as Hle.
  destruct (includes l x) eqn:E.
  - apply includes_In in E. apply (count_occ_In string_dec) in E. lia.
  - apply (count_occ_not_In string_dec). intros Hin.
    apply includes_In in Hin. congruence.
Qed.

Lemma diff_is_permutation (previous newTags vals : list string) :
  NoDup previous -> NoDup newTags -> Permutation vals previous ->
  Permutation
    (remove_each (tags_toRemove previous newTags)
       (vals ++ tags_toAdd previous newTags))
    newTags.
Proof.
  intros Hp Hn Hperm.
  apply (Permutation_count_occ string_dec). intros x.
  assert (Hvals : count_occ string_dec vals x
                  = count_occ string_dec previous x)
    by (apply (Permutation_count_occ string_dec); exact Hperm).
  assert (Hadd : count_occ string_dec (tags_toAdd previous newTags) x
                 = if negb (includes previous x)
                   then count_occ string_dec newTags x else 0)
    by (unfold tags_toAdd; apply count_occ_filter).
  rewrite (NoDup_count_le x Hn) in *.
  rewrite (NoDup_count_le x Hp) in Hvals.
  destruct (in_dec string_dec x (tags_toRemove previous newTags))
    as [Hin|Hout].
  - rewrite (@remove_each_count_removed _ _ _
               (NoDup_filter _ Hp) Hin).
    rewrite count_occ_app, Hvals, Hadd.
    apply tags_toRemove_In in Hin. destruct Hin as [H1 H2].
    rewrite (proj2 (includes_In previous x) H1).
    destruct (includes newTags x) eqn:E;
      [apply includes_In in E; contradiction | reflexivity].
  - rewrite (@remove_each_count_other _ _ _ Hout).
    rewrite count_occ_app, Hvals, Hadd.
    rewrite tags_toRemove_In in Hout. rewrite <- !includes_In in Hout.
    destruct (includes previous x), (includes newTags x); simpl;
      try reflexivity.
    exfalso. apply Hout. split; [reflexivity | discriminate].
Qed.

(** When the collection holds the recorded default tags, each once, every
    tag to remove is in it. *)
Lemma removed_tags_present (previous newTags vals : list string) :
  NoDup previous -> Permutation vals previous ->
  forall tag, count_occ string_dec (tags_toRemove previous newTags) tag
              <= count_occ string_dec vals tag.
Proof.
  intros Hp Hperm tag.
  rewrite (proj1 (Permutation_count_occ string_dec vals previous) Hperm tag).
  unfold tags_toRemove. rewrite count_occ_filter.
  destruct (negb (includes newTags tag)); lia.
Qed.

(** X3.  As long as the tag collection holds the recorded default tags,
    each once, and the new default tags have no duplicate, a settings
    change leaves the collection holding exactly the new default tags, each
    once: no tag of the old list is left behind and none is added twice. *)
Theorem tag_collection_tracks_default_tags (w : World) (newTags : list string) :
  _settings (this w) = ref ->
  _panel (this w) = ref ->
  defaultTags (composite (settings w)) = Some newTags ->
  NoDup newTags ->
  NoDup (_previousDefaultTags (this w)) ->
  Permutation (toolbar_tags w) (_previousDefaultTags (this w)) ->
  exists w',
    _onSettingsChanged w = Ok w'
    /\ _previousDefaultTags (this w') = newTags
    /\ Permutation (toolbar_tags w') (_previousDefaultTags (this w'))
    /\ NoDup (toolbar_tags w').
Proof.
  intros Hs Hp Htags Hnew Hprev Hperm.
  destruct (onSettingsChanged_Ok w Hs Hp)
    as (w' & Hrun & _ & _ & Hall & Hrec).
  rewrite Htags in Hall, Hrec. simpl in Hall, Hrec.
  exists w'. split; [exact Hrun|]. split; [exact Hrec|].
  assert (H : Permutation (toolbar_tags w') newTags).
  { unfold toolbar_tags. rewrite Hall.
    rewrite (proj1 (next_allTags_present _ _ _
                      (removed_tags_present newTags Hprev Hperm))).
    exact (diff_is_permutation Hprev Hnew Hperm). }
  split.
  - rewrite Hrec. exact H.
  - apply (Permutation_NoDup (Permutation_sym H)). exact Hnew.
Qed.

Lemma tag_collection_tracks_default_tags_witness :
  exists w',
    _onSettingsChanged
      (with_composite (Sample.with_defaultTags ["b"; "c"]) Sample.tagged_ab)
    = Ok w'
    /\ _previousDefaultTags (this w') = ["b"; "c"]
    /\ Permutation (toolbar_tags w') (_previousDefaultTags (this w'))
    /\ NoDup (toolbar_tags w').
Proof.
  apply (@tag_collection_tracks_default_tags
           (with_composite (Sample.with_defaultTags ["b"; "c"])
              Sample.tagged_ab)
           ["b"; "c"]).
  - reflexivity.
  - reflexivity.
  - reflexivity.
  - repeat constructor; simpl; intuition discriminate.
  - repeat constructor; simpl; intuition discriminate.
  - apply Permutation_refl.
Defined.

(** ** Further properties: a settings change and the widgets *)

Lemma set_spacer_is_toolbar (z : Z) (x : Widget) :
  is_toolbar (set_spacer z x) = is_toolbar x.
Proof.
  unfold set_spacer, is_toolbar. destruct x as [k cl]. destruct k; reflexivity.
Qed.

Lemma set_spacer_hasClass (z : Z) (cl : string) (x : Widget) :
  hasClass cl (set_spacer z x) = hasClass cl x.
Proof.
  unfold set_spacer, hasClass. destruct x as [k cls]. destruct k; reflexivity.
Qed.

Lemma set_spacer_bound_models (z : Z) (ws : list Widget) :
  bound_models (map (set_spacer z) ws) = bound_models ws.
Proof.
  induction ws as [|x rest IH]; simpl; [reflexivity|].
  rewrite IH. unfold set_spacer. destruct x as [k cl].
  destruct k; reflexivity.
Qed.

Lemma set_spacer_widths (z : Z) (ws : list Widget) :
  Forall (fun width => width = z) (spacer_widths (map (set_spacer z) ws)).
Proof.
  induction ws as [|x rest IH]; simpl; [constructor|].
  apply Forall_app. split; [|exact IH].
  unfold set_spacer. destruct x as [k cl].
  destruct k; simpl; repeat constructor.
Qed.

Lemma set_spacers_own_toolbar (z : Z) (c : Cell) :
  has_own_toolbar c ->
  has_own_toolbar (with_layout (map (set_spacer z) (layout_widgets c)) c).
Proof.
  intros [Hb Hc]. split; simpl.
  - rewrite set_spacer_bound_models. exact Hb.
  - intros x Hx Ht. apply in_map_iff in Hx. destruct Hx as (y & <- & Hy).
    rewrite set_spacer_hasClass. rewrite set_spacer_is_toolbar in Ht.
    exact (Hc y Hy Ht).
Qed.

Lemma set_spacer_resized (z : Z) (ws : list Widget) :
  Forall2 (resized z) ws (map (set_spacer z) ws).
Proof.
  induction ws as [|x rest IH]; simpl; constructor; [|exact IH].
  unfold resized, set_spacer. destruct x as [k cl].
  destruct k; simpl; auto.
Qed.

Lemma set_spacers_resized (z : Z) (cs : list Cell) :
  cells_resized z cs (set_spacers z cs).
Proof.
  unfold cells_resized, set_spacers.
  induction cs as [|c rest IH]; simpl; constructor; [|exact IH].
  split; [reflexivity | apply set_spacer_resized].
Qed.

(** X4.  A settings change creates no widget and disposes none: the panel
    renders the same cells in the same order, each with the same children
    in the same order and with the same classes; a child that is no
    toolbar is unchanged, a toolbar stays bound to its model and its spacer
    takes the left space of the settings, 0 when it is null, which is also
    the left space the next toolbar is built with.  The cell list, the
    connection to it and the trace of widget operations are unchanged, and
    a notebook in which every cell holds its one toolbar stays so. *)
Theorem settings_change_only_resizes_spacers (w : World) :
  _settings (this w) = ref ->
  _panel (this w) = ref ->
  exists w',
    _onSettingsChanged w = Ok w'
    /\ cells_resized (or_zero (leftSpace (composite (settings w))))
         (content_widgets (panel w)) (content_widgets (panel w'))
    /\ map cell_model (content_widgets (panel w'))
       = map cell_model (content_widgets (panel w))
    /\ model_cells (panel w') = model_cells (panel w)
    /\ cells_changed (panel w') = cells_changed (panel w)
    /\ live_toolbars w' = live_toolbars w
    /\ trace w' = trace w
    /\ Forall
         (fun width => width = or_zero (leftSpace (composite (settings w))))
         (live_spacers w')
    /\ current_leftSpace w' = or_zero (leftSpace (composite (settings w)))
    /\ (in_correspondence w -> in_correspondence w').
Proof.
  intros Hs Hp. unfold _onSettingsChanged. rewrite Hs, Hp.
  eexists. split; [reflexivity|].
  unfold live_toolbars, live_spacers, current_leftSpace.
  cbn [panel this settings trace content_widgets model_cells cells_changed
       _settings with_content_widgets].
  set (z := or_zero (leftSpace (composite (settings w)))).
  split; [apply set_spacers_resized|].
  split.
  { unfold set_spacers. rewrite map_map. reflexivity. }
  split; [reflexivity|].
  split; [reflexivity|].
  split.
  { unfold set_spacers. rewrite flat_map_concat_map, map_map,
      <- flat_map_concat_map.
    apply flat_map_ext. intros c. simpl. apply set_spacer_bound_models. }
  split; [reflexivity|].
  split.
  { unfold set_spacers.
    induction (content_widgets (panel w)) as [|c rest IH]; simpl;
      [constructor|].
    apply Forall_app. split; [apply set_spacer_widths | exact IH]. }
  split; [reflexivity|].
  intros [Hr Hd Hall]. constructor; cbn [panel content_widgets model_cells
    with_content_widgets].
  - unfold set_spacers. rewrite map_map. exact Hr.
  - exact Hd.
  - unfold set_spacers. apply Forall_map.
    eapply Forall_impl; [|exact Hall].
    intros c Hc. apply set_spacers_own_toolbar. exact Hc.
Qed.

(** The tracker with a toolbar on cell 1 is told a left space of 10: the
    spacer of the toolbar goes from 0 to 10 and the four other children of
    the cell stay. *)
Lemma settings_change_only_resizes_spacers_witness :
  exists w',
    _onSettingsChanged
      (with_composite
         {| defaultTags := None; leftMenu := None;
            rightMenu := None; leftSpace := Some 10%Z |}
         Sample.with_cell_1) = Ok w'
    /\ content_widgets (panel Sample.with_cell_1)
       = [ {| cell_model := 1;
              layout_widgets :=
                [ Sample.toolbar_1;
                  Sample.content "header"; Sample.content "inputWrapper";
                  Sample.run_button; Sample.up_button ] |} ]
    /\ content_widgets (panel w')
       = [ {| cell_model := 1;
              layout_widgets :=
                [ {| kind := CellToolbarWidget 1 10;
                     classes := ["jp-enh-cell-bar"] |};
                  Sample.content "header"; Sample.content "inputWrapper";
                  Sample.run_button; Sample.up_button ] |} ]
    /\ live_toolbars w' = [1]
    /\ live_spacers w' = [10%Z]
    /\ current_leftSpace w' = 10%Z
    /\ trace w' = trace Sample.with_cell_1.
Proof.
  destruct (settings_change_only_resizes_spacers
              (with_composite
                 {| defaultTags := None; leftMenu := None;
                    rightMenu := None; leftSpace := Some 10%Z |}
                 Sample.with_cell_1)
              eq_refl eq_refl)
    as (w' & Hrun & _).
  exists w'. split; [exact Hrun|].
  vm_compute in Hrun. injection Hrun as <-. repeat split; reflexivity.
Defined.

(** ** Further properties: adding and removing a toolbar *)

Lemma world_ext (w w' : World) :
  this w' = this w ->
  settings w' = settings w ->
  trace w' = trace w ->
  content_widgets (panel w') = content_widgets (panel w) ->
  model_cells (panel w') = model_cells (panel w) ->
  cells_changed (panel w') = cells_changed (panel w) ->
  w' = w.
Proof.
  destruct w as [[cs mc cc] s t tr], w' as [[cs' mc' cc'] s' t' tr'].
  simpl. intros. subst. reflexivity.
Qed.

Lemma update_cell_twice (model : ICellModel) (f g : Cell -> Cell)
  (cs : list Cell) :
  (forall c, cell_model (f c) = cell_model c) ->
  update_cell model g (update_cell model f cs)
  = update_cell model (fun c => g (f c)) cs.
Proof.
  intros Hf. induction cs as [|c rest IH]; simpl; [reflexivity|].
  destruct (Nat.eqb (cell_model c) model) eqn:E; simpl.
  - rewrite Hf, E. reflexivity.
  - rewrite E, IH. reflexivity.
Qed.

Lemma update_cell_unchanged (model : ICellModel) (f : Cell -> Cell)
  (cs : list Cell) :
  (forall c, In c cs -> cell_model c = model -> f c = c) ->
  update_cell model f cs = cs.
Proof.
  induction cs as [|c rest IH]; intros H; simpl; [reflexivity|].
  destruct (Nat.eqb_spec (cell_model c) model) as [E|E].
  - rewrite (H c (or_introl eq_refl) E). reflexivity.
  - f_equal. apply IH. intros d Hd. apply H. right. exact Hd.
Qed.

Lemma getCell_Some (model : ICellModel) (w : World) (cell : Cell) :
  _getCell model w = Ok (Some cell) ->
  _panel (this w) = ref
  /\ find (fun c => Nat.eqb (cell_model c) model) (content_widgets (panel w))
     = Some cell.
Proof.
  unfold _getCell. destruct (_panel (this w)); [discriminate|].
  intros [= H]. auto.
Qed.

Lemma positioned_buttons_classed (commands : CommandRegistry) :
  Forall (fun b => hasClass CELL_BAR_CLASS b = true)
    (positioned_buttons commands).
Proof.
  unfold positioned_buttons. apply Forall_map, Forall_forall.
  intros entry _. reflexivity.
Qed.

Lemma filter_all {A : Type} (p : A -> bool) (l : list A) :
  Forall (fun x => p x = true) l -> filter p l = l.
Proof.
  induction 1 as [|x rest Hx _ IH]; simpl; [reflexivity|].
  rewrite Hx, IH. reflexivity.
Qed.

Lemma filter_negb_none {A : Type} (p : A -> bool) (l : list A) :
  filter p l = [] -> filter (fun x => negb (p x)) l = l.
Proof.
  induction l as [|x rest IH]; simpl; [reflexivity|].
  destruct (p x); [discriminate|]. simpl. intros H. f_equal. exact (IH H).
Qed.

Lemma strip_attached (toolbar : Widget) (commands : CommandRegistry)
  (c : Cell) :
  hasClass CELL_BAR_CLASS toolbar = true ->
  _findToolbarWidgets c = [] ->
  strip_toolbars (attach_toolbar toolbar (positioned_buttons commands) c) = c
  /\ _findToolbarWidgets
       (attach_toolbar toolbar (positioned_buttons commands) c)
     = toolbar :: positioned_buttons commands.
Proof.
  intros Ht Hnone. unfold _findToolbarWidgets in *.
  unfold strip_toolbars, attach_toolbar, with_layout.
  destruct c as [m l]. cbn [cell_model layout_widgets] in *.
  cbn [filter app]. rewrite Ht. cbn [negb].
  rewrite !filter_app, Hnone, (filter_negb_none _ _ Hnone).
  rewrite (filter_all _ (positioned_buttons_classed commands)).
  rewrite (filter_none (fun x => negb (hasClass CELL_BAR_CLASS x))).
  - rewrite app_nil_r. split; reflexivity.
  - intros x Hx.
    pose proof (positioned_buttons_classed commands) as H.
    rewrite Forall_forall in H. rewrite (H x Hx). reflexivity.
Qed.

(** X5.  On a rendered cell that has no child of the toolbar class,
    [_addToolbar] followed by [_removeToolbar] gives the panel back as it
    was: the toolbar and every positioned button carry the toolbar class,
    so all of them, and nothing else, are disposed. *)
Theorem add_then_remove_restores_the_cell
  (model : ICellModel) (w : World) (cell : Cell) :
  _getCell model w = Ok (Some cell) ->
  _findToolbarWidgets cell = [] ->
  exists w1 w2,
    _addToolbar model w = Ok w1
    /\ _removeToolbar model w1 = Ok w2
    /\ panel w2 = panel w
    /\ this w2 = this w
    /\ settings w2 = settings w
    /\ trace w2
       = trace w
         ++ (Inserted model 0 (new_toolbar model w)
             :: map (Added model) (positioned_buttons (_commands (this w))))
         ++ map (Disposed model)
              (new_toolbar model w
               :: positioned_buttons (_commands (this w))).
Proof.
  intros Hget Hnone.
  destruct (getCell_Some _ _ Hget) as [Hp Hfind].
  destruct (addToolbar_spec model w Hp) as (w1 & Hrun1 & Hsame1 & Hc1 & Htr1).
  assert (Hp1 : _panel (this w1) = ref)
    by (destruct Hsame1 as [Ht _ _ _ _]; rewrite Ht; exact Hp).
  destruct (removeToolbar_spec model w1 Hp1)
    as (w2 & Hrun2 & Hsame2 & Hc2 & Htr2).
  exists w1, w2. split; [exact Hrun1|]. split; [exact Hrun2|].
  pose proof (same_tracker_trans Hsame1 Hsame2) as [Ht Hs Hcc Hmc _].
  destruct (strip_attached (new_toolbar model w) (_commands (this w)) cell
              eq_refl Hnone) as [Hback Hfound].
  assert (Hcontent : content_widgets (panel w2) = content_widgets (panel w)).
  { rewrite Hc2, Hc1, update_cell_twice by reflexivity.
    rewrite (@update_cell_found model _ (fun c => c) _ cell Hfind Hback).
    apply update_cell_unchanged. reflexivity. }
  split.
  { destruct (panel w2) as [cs2 mc2 cc2], (panel w) as [cs mc cc].
    simpl in *. subst. reflexivity. }
  split; [exact Ht|]. split; [exact Hs|].
  rewrite Htr2, Htr1, Hc1, <- app_assoc. f_equal.
  rewrite (@find_update_cell_same
             (attach_toolbar (new_toolbar model w)
                (positioned_buttons (_commands (this w))))
             (fun c => eq_refl)), Hfind.
  simpl option_map. cbv iota. rewrite Hfound. unfold additions_for.
  rewrite find_rendered, Hfind. reflexivity.
Qed.

(** Cell 1 of the sample store has its two content widgets only. *)
Lemma add_then_remove_restores_the_cell_witness :
  exists w1 w2,
    _addToolbar 1 Sample.store = Ok w1
    /\ _removeToolbar 1 w1 = Ok w2
    /\ live_toolbars w1 = [1]
    /\ panel w2 = panel Sample.store.
Proof.
  destruct (@add_then_remove_restores_the_cell
              1 Sample.store (Sample.fresh_cell 1) eq_refl eq_refl)
    as (w1 & w2 & Hrun1 & Hrun2 & Hpanel & _).
  exists w1, w2. split; [exact Hrun1|]. split; [exact Hrun2|].
  split; [|exact Hpanel].
  vm_compute in Hrun1. injection Hrun1 as <-. reflexivity.
Defined.

Lemma update_cell_ext (model : ICellModel) (f g : Cell -> Cell)
  (cs : list Cell) :
  (forall c, f c = g c) -> update_cell model f cs = update_cell model g cs.
Proof.
  intros H. induction cs as [|c rest IH]; simpl; [reflexivity|].
  rewrite H, IH. reflexivity.
Qed.

(** X6.  [_removeToolbar] is idempotent: once it has run for a model, a
    second run for the same model finds no child of the toolbar class and
    leaves the store exactly as it is. *)
Theorem removeToolbar_twice_is_once (model : ICellModel) (w : World) :
  _panel (this w) = ref ->
  exists w1,
    _removeToolbar model w = Ok w1
    /\ _removeToolbar model w1 = Ok w1.
Proof.
  intros Hp.
  destruct (removeToolbar_spec model w Hp) as (w1 & Hrun1 & Hsame1 & Hc1 & _).
  assert (Hp1 : _panel (this w1) = ref)
    by (destruct Hsame1 as [Ht _ _ _ _]; rewrite Ht; exact Hp).
  destruct (removeToolbar_spec model w1 Hp1)
    as (w2 & Hrun2 & [Ht Hs Hcc Hmc _] & Hc2 & Htr2).
  exists w1. split; [exact Hrun1|]. rewrite Hrun2. f_equal.
  apply world_ext; try assumption.
  - rewrite Htr2, Hc1.
    rewrite (@find_update_cell_same strip_toolbars (fun c => eq_refl)).
    destruct (find _ (content_widgets (panel w))) as [c|]; simpl.
    + rewrite strip_toolbars_none_left. apply app_nil_r.
    + apply app_nil_r.
  - rewrite Hc2, Hc1, update_cell_twice by reflexivity.
    apply update_cell_ext. apply strip_toolbars_idempotent.
Qed.

Lemma removeToolbar_twice_is_once_witness :
  exists w1,
    _removeToolbar 1 Sample.with_cell_1 = Ok w1
    /\ _removeToolbar 1 w1 = Ok w1.
Proof.
  apply (removeToolbar_twice_is_once 1 Sample.with_cell_1). reflexivity.
Defined.

(** X7.  [_addToolbar] does not look for a toolbar the cell may already
    have: each call on a rendered model puts one more Toolbar Instance,
    bound to the model and built with the current left space, in front of
    the children of the cell. *)
Theorem addToolbar_always_adds_one
  (model : ICellModel) (w : World) (cell : Cell) :
  _getCell model w = Ok (Some cell) ->
  exists w' cell',
    _addToolbar model w = Ok w'
    /\ _getCell model w' = Ok (Some cell')
    /\ layout_widgets cell'
       = (new_toolbar model w :: layout_widgets cell)
         ++ positioned_buttons (_commands (this w))
    /\ bound_models (layout_widgets cell')
       = model :: bound_models (layout_widgets cell)
    /\ spacer_widths (layout_widgets cell')
       = current_leftSpace w :: spacer_widths (layout_widgets cell).
Proof.
  intros Hget. destruct (getCell_Some _ _ Hget) as [Hp Hfind].
  destruct (addToolbar_spec model w Hp) as (w' & Hrun & Hsame & Hc & _).
  exists w'. eexists. split; [exact Hrun|].
  split.
  { unfold _getCell. destruct Hsame as [Ht _ _ _ _]. rewrite Ht, Hp, Hc.
    rewrite (@find_update_cell_same
               (attach_toolbar (new_toolbar model w)
                  (positioned_buttons (_commands (this w))))
               (fun c => eq_refl)), Hfind.
    reflexivity. }
  split; [reflexivity|].
  split.
  - simpl. rewrite bound_models_app, bound_models_positioned_buttons.
    rewrite app_nil_r. reflexivity.
  - simpl. unfold spacer_widths at 1. rewrite flat_map_app.
    fold (spacer_widths (layout_widgets cell)).
    assert (H : flat_map
                  (fun x => match kind x with
                            | CellToolbarWidget _ width => [width]
                            | _ => []
                            end)
                  (positioned_buttons (_commands (this w))) = []).
    { unfold positioned_buttons. rewrite flat_map_concat_map, map_map.
      induction (filter _ POSITIONED_BUTTONS) as [|e rest IH];
        [reflexivity | exact IH]. }
    rewrite H, app_nil_r. reflexivity.
Qed.

(** Cell 1 already has its toolbar; a second call gives it a second one. *)
Lemma addToolbar_always_adds_one_witness :
  exists w',
    _addToolbar 1 Sample.with_cell_1 = Ok w'
    /\ live_toolbars Sample.with_cell_1 = [1]
    /\ live_toolbars w' = [1; 1].
Proof.
  destruct (@addToolbar_always_adds_one 1 Sample.with_cell_1
              (hd (Sample.fresh_cell 1)
                 (content_widgets (panel Sample.with_cell_1)))
              eq_refl)
    as (w' & cell' & Hrun & _).
  exists w'. split; [exact Hrun|]. split; [reflexivity|].
  vm_compute in Hrun. injection Hrun as <-. reflexivity.
Defined.

(** ** Further properties: what a cell-list change leaves alone *)

Lemma nth_error_update_cell_other (model : ICellModel) (f : Cell -> Cell)
  (cs : list Cell) (i : nat) (c : Cell) :
  nth_error cs i = Some c ->
  cell_model c <> model ->
  nth_error (update_cell model f cs) i = Some c.
Proof.
  revert i. induction cs as [|d rest IH]; intros i Hnth Hne.
  - destruct i; discriminate.
  - simpl. destruct (Nat.eqb_spec (cell_model d) model) as [E|E].
    + destruct i as [|i]; simpl in *; [|exact Hnth].
      injection Hnth as ->. contradiction.
    + destruct i as [|i]; simpl in *; [exact Hnth | exact (IH i Hnth Hne)].
Qed.

Section FrameOverModels.
Variable step : ICellModel -> World -> outcome World.
Hypothesis step_spec :
  forall m w,
    _panel (this w) = ref ->
    exists w' F,
      step m w = Ok w' /\ same_tracker w w'
      /\ content_widgets (panel w')
         = update_cell m F (content_widgets (panel w)).

Lemma forEach_frame (models : list ICellModel) (w : World) :
  _panel (this w) = ref ->
  exists w',
    forEach step models w = Ok w'
    /\ forall i c,
         nth_error (content_widgets (panel w)) i = Some c ->
         ~ In (cell_model c) models ->
         nth_error (content_widgets (panel w')) i = Some c.
Proof.
  revert w. induction models as [|m rest IH]; intros w Hp; simpl.
  - exists w. auto.
  - destruct (step_spec m w Hp) as (w1 & F & Hrun & Hsame & Hc).
    rewrite Hrun. simpl.
    assert (Hp1 : _panel (this w1) = ref)
      by (destruct Hsame as [Ht _ _ _ _]; rewrite Ht; exact Hp).
    destruct (IH w1 Hp1) as (w' & Hrest & Hframe).
    exists w'. split; [exact Hrest|].
    intros i c Hnth Hnot. apply Hframe.
    + rewrite Hc. apply nth_error_update_cell_other; [exact Hnth|].
      intros E. apply Hnot. left. symmetry. exact E.
    + intros H. apply Hnot. right. exact H.
Qed.
End FrameOverModels.

(** X8.  Handling a cell-list change touches only the cells of the models
    the change names: every other rendered cell keeps its place and its
    children.  The tracker's fields (the three collections among them), the
    settings, the cell list, the connection of the handler and the order of
    the rendered models are as before. *)
Theorem updateConnectedCells_touches_named_cells_only
  (cells : list ICellModel) (changed : IChangedArgs ICellModel) (w : World) :
  _panel (this w) = ref ->
  exists w',
    updateConnectedCells cells changed w = Ok w'
    /\ this w' = this w
    /\ settings w' = settings w
    /\ cells_changed (panel w') = cells_changed (panel w)
    /\ model_cells (panel w') = model_cells (panel w)
    /\ map cell_model (content_widgets (panel w'))
       = map cell_model (content_widgets (panel w))
    /\ forall i c,
         nth_error (content_widgets (panel w)) i = Some c ->
         ~ In (cell_model c) (oldValues changed ++ newValues changed) ->
         nth_error (content_widgets (panel w')) i = Some c.
Proof.
  intros Hp.
  destruct (updateConnectedCells_Ok cells changed w Hp)
    as (w' & Hrun & [Ht Hs Hcc Hmc Hmodels]).
  exists w'. split; [exact Hrun|].
  repeat (split; [assumption|]).
  unfold updateConnectedCells in Hrun.
  destruct (@forEach_frame _removeToolbar) with (models := oldValues changed)
    (w := w) as (w1 & Hrun1 & Hframe1); [|exact Hp|].
  { intros m w0 Hp0.
    destruct (removeToolbar_spec m w0 Hp0) as (w2 & H1 & H2 & H3 & _).
    exists w2, strip_toolbars. auto. }
  rewrite Hrun1 in Hrun. simpl in Hrun.
  assert (Hp1 : _panel (this w1) = ref).
  { destruct (forEach_removeToolbar_spec (oldValues changed) w Hp)
      as (w1' & Hrun1' & [Ht1 _ _ _ _] & _).
    rewrite Hrun1 in Hrun1'. injection Hrun1' as <-.
    rewrite Ht1. exact Hp. }
  destruct (@forEach_frame _addToolbar) with (models := newValues changed)
    (w := w1) as (w2 & Hrun2 & Hframe2); [|exact Hp1|].
  { intros m w0 Hp0.
    destruct (addToolbar_spec m w0 Hp0) as (w2 & H1 & H2 & H3 & _).
    exists w2. eexists. split; [exact H1|]. split; [exact H2 | exact H3]. }
  rewrite Hrun2 in Hrun. injection Hrun as <-.
  intros i c Hnth Hnot. apply Hframe2.
  - apply Hframe1; [exact Hnth|].
    intros H. apply Hnot, in_or_app. left. exact H.
  - intros H. apply Hnot, in_or_app. right. exact H.
Qed.

(** Cell 1 of the sample store gets a toolbar; cell 2 stays as rendered. *)
Lemma updateConnectedCells_touches_named_cells_only_witness :
  exists w',
    updateConnectedCells [1; 2] (Sample.added 0 1) Sample.store = Ok w'
    /\ nth_error (content_widgets (panel w')) 1 = Some (Sample.fresh_cell 2)
    /\ this w' = this Sample.store.
Proof.
  destruct (updateConnectedCells_touches_named_cells_only
              [1; 2] (Sample.added 0 1) Sample.store eq_refl)
    as (w' & Hrun & Ht & _ & _ & _ & _ & Hframe).
  exists w'. split; [exact Hrun|]. split; [|exact Ht].
  apply Hframe; [reflexivity|].
  simpl. intros [H|[]]. discriminate.
Defined.

(** ** Further properties: the positioned buttons *)

(** X9.  Whatever commands are registered, [_addToolbar] builds a
    positioned button only for an entry of [POSITIONED_BUTTONS] whose
    command is registered, in the order of the entries, so at most four and
    none when no such command is registered.  Each button carries the
    toolbar class and the class for all cell types, executes the command of
    its entry, shows the command's label as tooltip and is named after the
    part of the command that follows the colon. *)
Theorem positioned_buttons_follow_the_registry (commands : CommandRegistry) :
  Forall
    (fun b =>
       hasClass CELL_BAR_CLASS b = true
       /\ hasClass "jp-enh-cell-all" b = true
       /\ exists entry suffix,
            In entry POSITIONED_BUTTONS
            /\ hasCommand commands (command entry) = true
            /\ command entry = ("notebook:" ++ suffix)%string
            /\ kind b
               = PositionedButton (icon entry) (command entry)
                   (Some ("jp-enh-cell-" ++ suffix)%string)
                   (label commands (command entry)))
    (positioned_buttons commands)
  /\ map (fun b => match kind b with
                   | PositionedButton _ callback _ _ => callback
                   | _ => ""
                   end)
       (positioned_buttons commands)
     = filter (hasCommand commands) (map command POSITIONED_BUTTONS)
  /\ List.length (positioned_buttons commands) <= 4
  /\ ((forall entry, In entry POSITIONED_BUTTONS ->
                     hasCommand commands (command entry) = false) ->
      positioned_buttons commands = []).
Proof.
  split; [|split; [|split]].
  - unfold positioned_buttons. apply Forall_map, Forall_forall.
    intros entry Hin. apply filter_In in Hin. destruct Hin as [Hin Hcmd].
    split; [reflexivity|].
    simpl in Hin.
    destruct Hin as [<-|[<-|[<-|[<-|[]]]]];
      (split; [reflexivity|]);
      match type of Hcmd with
      | hasCommand _ (command ?e) = true => exists e
      end;
      eexists;
      (split; [simpl; tauto|]);
      (split; [exact Hcmd|]);
      (split; reflexivity).
  - unfold positioned_buttons.
    generalize POSITIONED_BUTTONS as entries.
    induction entries as [|e rest IH]; [reflexivity|].
    cbn [filter map].
    destruct (hasCommand commands (command e)); [|exact IH].
    cbn [map]. f_equal. exact IH.
  - unfold positioned_buttons. rewrite length_map.
    etransitivity; [apply filter_length_le | apply Nat.le_refl].
  - intros H. unfold positioned_buttons.
    rewrite (filter_none (fun entry => hasCommand commands (command entry))
               POSITIONED_BUTTONS H).
    reflexivity.
Qed.

(** ** Further properties: a disposed tracker *)

Lemma deliver_disposed (ev : HostEvent) (w : World) :
  consistent w ->
  _isDisposed (this w) = true ->
  exists w',
    deliver ev w = Ok w'
    /\ consistent w'
    /\ this w' = this w
    /\ trace w' = trace w
    /\ cells_changed (panel w') = false
    /\ settings_changed (settings w') = false.
Proof.
  intros Hc Hd.
  assert (Hcc : cells_changed (panel w) = false).
  { destruct (cells_changed (panel w)) eqn:E; [|reflexivity].
    pose proof (cells_connected_live Hc E). congruence. }
  assert (Hsc : settings_changed (settings w) = false).
  { destruct (settings_changed (settings w)) eqn:E; [|reflexivity].
    destruct (settings_connected_live Hc E). congruence. }
  destruct ev as [change | c |]; unfold deliver.
  - change (cells_changed (panel (host_update change w)))
      with (cells_changed (panel w)).
    rewrite Hcc. eexists. split; [reflexivity|].
    split; [destruct Hc; constructor; assumption|].
    repeat split; assumption || reflexivity.
  - cbv zeta.
    change (settings_changed (settings (with_composite c w)))
      with (settings_changed (settings w)).
    rewrite Hsc. eexists. split; [reflexivity|].
    split; [destruct Hc; constructor; assumption|].
    repeat split; assumption || reflexivity.
  - unfold dispose, isDisposed. rewrite Hd. exists w.
    split; [reflexivity|]. split; [exact Hc|].
    repeat split; assumption || reflexivity.
Qed.

(** X10.  Once [dispose] has run, whatever the host does next reaches the
    tracker no more: cell-list changes, settings changes and further
    disposals leave every field of the tracker as it is, no widget
    operation is done, and neither signal is connected again. *)
Theorem disposed_tracker_no_longer_reacts
  (widgets : list Cell) (cells : list ICellModel) (c : Composite)
  (commands : CommandRegistry) (settings_arg : reference)
  (before after : list HostEvent) :
  exists w wd w',
    launch widgets cells c commands settings_arg before = Ok w
    /\ dispose w = Ok wd
    /\ run after wd = Ok w'
    /\ isDisposed w' = true
    /\ this w' = this wd
    /\ trace w' = trace wd
    /\ cells_changed (panel w') = false
    /\ settings_changed (settings w') = false.
Proof.
  destruct (launch_consistent widgets cells c commands settings_arg before)
    as (w & Hrun & Hc).
  destruct (dispose_consistent Hc)
    as (wd & Hdisp & Hcd & Hd & _ & Hcc & Hsc & _).
  exists w, wd.
  assert (G : forall evs w0,
             consistent w0 -> _isDisposed (this w0) = true ->
             cells_changed (panel w0) = false ->
             settings_changed (settings w0) = false ->
             exists w', run evs w0 = Ok w'
                        /\ this w' = this w0 /\ trace w' = trace w0
                        /\ cells_changed (panel w') = false
                        /\ settings_changed (settings w') = false).
  { unfold run. induction evs as [|ev rest IH]; intros w0 H0 Hd0 Hc0 Hs0.
    - exists w0. auto.
    - simpl. destruct (deliver_disposed ev H0 Hd0)
        as (w1 & Hrun1 & Hc1 & Ht1 & Htr1 & Hcc1 & Hsc1).
      rewrite Hrun1. simpl.
      assert (Hd1 : _isDisposed (this w1) = true) by (rewrite Ht1; exact Hd0).
      destruct (IH w1 Hc1 Hd1 Hcc1 Hsc1) as (w' & Hr & Ht & Htr & H3 & H4).
      exists w'. split; [exact Hr|].
      repeat split; congruence. }
  destruct (G after wd Hcd Hd Hcc Hsc) as (w' & Hr & Ht & Htr & H3 & H4).
  exists w'. unfold isDisposed. rewrite Ht.
  repeat split; assumption.
Qed.

(** ** Further properties: the tracker of a new notebook *)

Lemma next_allTags_initial (newTags : list string) :
  ObservableList.values (next_allTags [] newTags ObservableList.empty)
  = newTags.
Proof.
  rewrite (proj1 (next_allTags_present [] newTags ObservableList.empty
                    (fun tag => Nat.le_0_l _))).
  unfold tags_toRemove, tags_toAdd. simpl.
  apply filter_all. apply Forall_forall. intros x _. reflexivity.
Qed.

(** X11.  [createNew] gives the notebook a live tracker that uses the
    commands and the settings source of the extension and is connected to
    the cell list, and to the settings exactly when there is a settings
    source.  With a settings source the three collections are decoded from
    the composite at once; without one they are empty.  The cells the
    notebook renders already get no toolbar: the constructor does no
    widget operation. *)
Theorem createNew_tracker
  (ext : CellBarExtension.t) (widgets : list Cell)
  (cells : list ICellModel) (c : Composite) :
  exists w,
    CellBarExtension.createNew ext widgets cells c = Ok w
    /\ _commands (this w) = CellBarExtension._commands ext
    /\ _settings (this w) = CellBarExtension._settings ext
    /\ isDisposed w = false
    /\ cells_changed (panel w) = true
    /\ settings_changed (settings w)
       = truthy (CellBarExtension._settings ext)
    /\ model_cells (panel w) = cells
    /\ map cell_model (content_widgets (panel w)) = map cell_model widgets
    /\ live_toolbars w = flat_map (fun x => bound_models (layout_widgets x))
                           widgets
    /\ trace w = []
    /\ match CellBarExtension._settings ext with
       | ref =>
           toolbar_leftMenu w = wanted_leftMenu c
           /\ toolbar_rightMenu w = or_array (rightMenu c) []
           /\ toolbar_tags w = or_array (defaultTags c) []
           /\ _previousDefaultTags (this w) = or_array (defaultTags c) []
       | null =>
           unconfigured w /\ content_widgets (panel w) = widgets
       end.
Proof.
  destruct ext as [commands s]. unfold CellBarExtension.createNew.
  cbn [CellBarExtension._commands CellBarExtension._settings].
  unfold constructor. destruct s.
  - eexists. split; [reflexivity|]. simpl.
    repeat split; reflexivity.
  - eexists. split; [reflexivity|].
    unfold live_toolbars, toolbar_leftMenu, toolbar_rightMenu, toolbar_tags,
      isDisposed.
    cbn [this panel settings trace with_panel with_settings
         with_cells_changed with_settings_changed initial_store
         _commands _settings _isDisposed cells_changed settings_changed
         model_cells content_widgets with_content_widgets connect truthy
         _leftMenuItems _rightMenuItems _allTags _previousDefaultTags
         composite].
    rewrite next_leftMenuItems_values, next_rightMenuItems_values,
      next_allTags_initial.
    repeat (split; [reflexivity|]).
    split; [unfold set_spacers; rewrite map_map; reflexivity|].
    split.
    { unfold set_spacers. rewrite flat_map_concat_map, map_map,
        <- flat_map_concat_map.
      apply flat_map_ext. intros x. simpl. apply set_spacer_bound_models. }
    repeat split; reflexivity.
Qed.

(** ** Further properties: the collections follow the settings *)

Lemma onSettingsChanged_frame (w w' : World) :
  _onSettingsChanged w = Ok w' ->
  settings w' = settings w
  /\ _isDisposed (this w') = _isDisposed (this w)
  /\ _settings (this w') = _settings (this w)
  /\ _settings (this w) = ref
  /\ _panel (this w) = ref.
Proof.
  unfold _onSettingsChanged.
  destruct (_settings (this w)) eqn:Es; [discriminate|].
  destruct (_panel (this w)) eqn:Ep; [discriminate|].
  intros [= <-]. simpl. auto.
Qed.

Lemma deliver_synced (ev : HostEvent) (w w' : World) :
  consistent w -> synced w -> deliver ev w = Ok w' -> synced w'.
Proof.
  intros Hc Hsy Hrun. destruct ev as [change | c |]; unfold deliver in Hrun.
  - assert (Hsy1 : synced (host_update change w)) by exact Hsy.
    destruct (cells_changed (panel (host_update change w))) eqn:E.
    + assert (Hc1 : consistent (host_update change w))
        by (destruct Hc; constructor; assumption).
      pose proof (live_has_panel Hc1 (cells_connected_live Hc1 E)) as Hp.
      destruct (updateConnectedCells_Ok (cells_now change)
                  (changed_args change) _ Hp) as (w2 & Hrun2 & Hsame).
      rewrite Hrun2 in Hrun. injection Hrun as <-.
      destruct Hsame as [Ht Hs _ _ _].
      unfold synced, toolbar_leftMenu, toolbar_rightMenu in *.
      rewrite Ht, Hs. exact Hsy1.
    + injection Hrun as <-. exact Hsy1.
  - cbv zeta in Hrun.
    destruct (settings_changed (settings (with_composite c w))) eqn:E.
    + destruct (onSettingsChanged_frame _ Hrun) as (Hs & Hd & Hst & Href & Hp).
      destruct (onSettingsChanged_Ok _ Href Hp)
        as (w2 & Hrun2 & Hl & Hr & _ & Hprev).
      rewrite Hrun2 in Hrun. injection Hrun as <-.
      intros _ _. unfold toolbar_leftMenu, toolbar_rightMenu.
      rewrite Hs, Hl, Hr, Hprev.
      rewrite next_leftMenuItems_values, next_rightMenuItems_values.
      repeat split; try reflexivity. exact E.
    + injection Hrun as <-. intros Hd Hs.
      destruct (Hsy Hd Hs) as [Hconn _].
      change (settings_changed (settings (with_composite c w)))
        with (settings_changed (settings w)) in E.
      congruence.
  - destruct (dispose_consistent Hc) as (w2 & Hrun2 & _ & Hd & _).
    rewrite Hrun2 in Hrun. injection Hrun as <-.
    intros H. congruence.
Qed.

Lemma constructor_synced (widgets : list Cell) (cells : list ICellModel)
  (c : Composite) (commands : CommandRegistry) (settings_arg : reference)
  (w : World) :
  constructor widgets cells c commands settings_arg = Ok w -> synced w.
Proof.
  unfold constructor. destruct settings_arg; simpl.
  - intros [= <-] _ H. discriminate.
  - intros [= <-] _ _. unfold toolbar_leftMenu, toolbar_rightMenu.
    cbn [this settings with_panel with_settings with_settings_changed
         _leftMenuItems _rightMenuItems _previousDefaultTags composite
         settings_changed connect].
    rewrite next_leftMenuItems_values, next_rightMenuItems_values.
    repeat split; reflexivity.
Qed.

(** X12.  In every life of a tracker that has a settings source, as long
    as the tracker is not disposed, it is connected to the settings signal
    and its collections follow the settings object: the left menu holds the
    list of the current composite, or the default menu when the list is
    null, the right menu holds the current list, or nothing, and the
    recorded default tags are the current ones. *)
Theorem live_tracker_follows_settings
  (widgets : list Cell) (cells : list ICellModel) (c : Composite)
  (commands : CommandRegistry) (evs : list HostEvent) :
  exists w,
    launch widgets cells c commands ref evs = Ok w
    /\ _settings (this w) = ref
    /\ (isDisposed w = false ->
        settings_changed (settings w) = true
        /\ toolbar_leftMenu w = wanted_leftMenu (composite (settings w))
        /\ toolbar_rightMenu w
           = or_array (rightMenu (composite (settings w))) []
        /\ _previousDefaultTags (this w)
           = or_array (defaultTags (composite (settings w))) []).
Proof.
  unfold launch.
  destruct (constructor_consistent widgets cells c commands ref)
    as (w0 & Hctor & Hc0 & _ & Hs0 & _).
  rewrite Hctor. simpl.
  pose proof (constructor_synced _ _ _ _ _ Hctor) as Hsy0.
  assert (G : forall evs w0,
             consistent w0 -> synced w0 -> _settings (this w0) = ref ->
             exists w, run evs w0 = Ok w /\ synced w
                       /\ _settings (this w) = ref).
  { unfold run. clear. induction evs as [|ev rest IH]; intros w0 Hc Hsy Hs.
    - exists w0. auto.
    - simpl. destruct (deliver_consistent ev Hc) as (w1 & Hrun & Hc1).
      rewrite Hrun. simpl. apply IH; [exact Hc1 | |].
      + exact (deliver_synced ev Hc Hsy Hrun).
      + destruct ev as [change | c' |]; unfold deliver in Hrun.
        * destruct (cells_changed (panel (host_update change w0))) eqn:E.
          -- assert (Hc0' : consistent (host_update change w0))
               by (destruct Hc; constructor; assumption).
             pose proof (live_has_panel Hc0'
                           (cells_connected_live Hc0' E)) as Hp.
             destruct (updateConnectedCells_Ok (cells_now change)
                         (changed_args change) _ Hp)
               as (w2 & Hrun2 & [Ht _ _ _ _]).
             rewrite Hrun2 in Hrun. injection Hrun as <-.
             rewrite Ht. exact Hs.
          -- injection Hrun as <-. exact Hs.
        * cbv zeta in Hrun.
          destruct (settings_changed (settings (with_composite c' w0))).
          -- destruct (onSettingsChanged_frame _ Hrun)
               as (_ & _ & Hst & _ & _).
             rewrite Hst. exact Hs.
          -- injection Hrun as <-. exact Hs.
        * destruct (dispose_consistent Hc)
            as (w2 & Hrun2 & _ & _ & _ & _ & _ & Hst & _).
          rewrite Hrun2 in Hrun. injection Hrun as <-.
          rewrite Hst. exact Hs. }
  destruct (G evs w0 Hc0 Hsy0 Hs0) as (w & Hrun & Hsy & Hs).
  exists w. split; [exact Hrun|]. split; [exact Hs|].
  intros Hd. exact (Hsy Hd Hs).
Qed.

(** ** Further properties: the tag update when the tags to remove are there *)

(** X13.  When the tag collection holds every tag that is to be removed at
    least as often as the previous default tags name it, a settings change
    updates the collection as a diff: the tags of the new list that are not
    in the previous one are appended in one 'add', only if there are any;
    then the first occurrence of each tag of the previous list that is not
    in the new one is removed, with one 'remove' naming that tag, in
    order.  For every tag the number of occurrences goes up by its
    occurrences among the appended tags and down by its occurrences among
    the removed ones, so a tag of both lists occurs as often as before, and
    the new list becomes the previous one. *)
Theorem defaultTags_update_is_a_diff_when_present
  (w : World) (newTags : list string) :
  _settings (this w) = ref ->
  _panel (this w) = ref ->
  defaultTags (composite (settings w)) = Some newTags ->
  (forall tag,
      count_occ string_dec
        (tags_toRemove (_previousDefaultTags (this w)) newTags) tag
      <= count_occ string_dec (toolbar_tags w) tag) ->
  exists w',
    _onSettingsChanged w = Ok w'
    /\ toolbar_tags w'
       = remove_each (tags_toRemove (_previousDefaultTags (this w)) newTags)
           (toolbar_tags w
            ++ tags_toAdd (_previousDefaultTags (this w)) newTags)
    /\ (forall tag,
          count_occ string_dec (toolbar_tags w') tag
          + count_occ string_dec
              (tags_toRemove (_previousDefaultTags (this w)) newTags) tag
          = count_occ string_dec (toolbar_tags w) tag
            + count_occ string_dec
                (tags_toAdd (_previousDefaultTags (this w)) newTags) tag)
    /\ (forall tag,
          In tag (tags_toAdd (_previousDefaultTags (this w)) newTags)
          <-> In tag newTags /\ ~ In tag (_previousDefaultTags (this w)))
    /\ (forall tag,
          In tag (tags_toRemove (_previousDefaultTags (this w)) newTags)
          <-> In tag (_previousDefaultTags (this w)) /\ ~ In tag newTags)
    /\ (forall tag,
          In tag (_previousDefaultTags (this w)) -> In tag newTags ->
          count_occ string_dec (toolbar_tags w') tag
          = count_occ string_dec (toolbar_tags w) tag)
    /\ (exists removals,
          emitted_since (_allTags (this w)) (_allTags (this w'))
            (addition_events (List.length (toolbar_tags w))
               (tags_toAdd (_previousDefaultTags (this w)) newTags)
             ++ removals)
          /\ Forall2 removal_of
               (tags_toRemove (_previousDefaultTags (this w)) newTags)
               removals)
    /\ _previousDefaultTags (this w') = newTags.
Proof.
  intros Hs Hp Htags Hpresent.
  set (previous := _previousDefaultTags (this w)) in *.
  destruct (onSettingsChanged_Ok w Hs Hp)
    as (w' & Hrun & _ & _ & Hall & Hrec).
  rewrite Htags in Hall, Hrec. simpl in Hall, Hrec. fold previous in Hall.
  destruct (next_allTags_present previous newTags (_allTags (this w))
              Hpresent) as (Hvals & removals & Hem & Hrem).
  exists w'. split; [exact Hrun|].
  assert (Hv : toolbar_tags w'
               = remove_each (tags_toRemove previous newTags)
                   (toolbar_tags w ++ tags_toAdd previous newTags))
    by (unfold toolbar_tags; rewrite Hall; exact Hvals).
  assert (Hcount :
            forall tag,
              count_occ string_dec (toolbar_tags w') tag
              + count_occ string_dec (tags_toRemove previous newTags) tag
              = count_occ string_dec (toolbar_tags w) tag
                + count_occ string_dec (tags_toAdd previous newTags) tag).
  { intros tag. rewrite Hv.
    pose proof (@remove_each_count_present
                  (tags_toRemove previous newTags) tag
                  (toolbar_tags w ++ tags_toAdd previous newTags)) as H.
    rewrite count_occ_app in H. apply H.
    intros t. rewrite count_occ_app. specialize (Hpresent t). lia. }
  split; [exact Hv|]. split; [exact Hcount|].
  split; [intros tag; apply tags_toAdd_In|].
  split; [intros tag; apply tags_toRemove_In|].
  split.
  { intros tag Hold Hnew. specialize (Hcount tag).
    rewrite (proj1 (count_occ_not_In string_dec
                      (tags_toRemove previous newTags) tag)) in Hcount
      by (rewrite tags_toRemove_In; tauto).
    rewrite (proj1 (count_occ_not_In string_dec
                      (tags_toAdd previous newTags) tag)) in Hcount
      by (rewrite tags_toAdd_In; tauto).
    lia. }
  split; [|exact Hrec].
  exists removals. rewrite Hall. split; [exact Hem | exact Hrem].
Qed.

(** With previous default tags "a", "b" and new default tags "b", "c":
    one 'add' of "c" and one 'remove' of "a" are emitted, and the collection
    goes from "a", "b" to "b", "c". *)
Lemma defaultTags_update_is_a_diff_when_present_witness :
  toolbar_tags Sample.tagged_ab = ["a"; "b"]
  /\ exists w',
       _onSettingsChanged
         (with_composite (Sample.with_defaultTags ["b"; "c"])
            Sample.tagged_ab) = Ok w'
       /\ toolbar_tags w' = ["b"; "c"]
       /\ emitted_since (_allTags (this Sample.tagged_ab))
            (_allTags (this w'))
            [ {| type := change_add; oldIndex := (-1); newIndex := 2;
                 oldValues := []; newValues := ["c"] |};
              {| type := change_remove; oldIndex := 0; newIndex := (-1);
                 oldValues := ["a"]; newValues := [] |} ].
Proof.
  split; [reflexivity|].
  assert (Hpresent :
            forall tag,
              count_occ string_dec
                (tags_toRemove
                   (_previousDefaultTags
                      (this (with_composite
                               (Sample.with_defaultTags ["b"; "c"])
                               Sample.tagged_ab)))
                   ["b"; "c"]) tag
              <= count_occ string_dec
                   (toolbar_tags
                      (with_composite (Sample.with_defaultTags ["b"; "c"])
                         Sample.tagged_ab)) tag).
  { intros tag.
    change (count_occ string_dec ["a"] tag
            <= count_occ string_dec ["a"; "b"] tag).
    cbn [count_occ].
    destruct (string_dec "a" tag), (string_dec "b" tag); lia. }
  destruct (@defaultTags_update_is_a_diff_when_present
              (with_composite (Sample.with_defaultTags ["b"; "c"])
                 Sample.tagged_ab)
              ["b"; "c"] eq_refl eq_refl eq_refl Hpresent)
    as (w' & Hrun & Hvals & _).
  exists w'. split; [exact Hrun|]. split; [exact Hvals|].
  vm_compute in Hrun. injection Hrun as <-. reflexivity.
Defined.
